(** * DocQuestioner: the resilient request client of the frontend

    A shallow embedding of the frontend's [api] module (the retrying axios
    wrapper [axiosRetry], the five verbs of [ApiClient], [handleApiError],
    [checkApiHealth]) and of its [services] module (the service wrappers),
    followed by the properties the specification states about them.

    Conventions of the embedding:
    - a JavaScript number is an integer [Z] (status codes, retry counts and
      millisecond delays are integers; fractions and NaN are not covered);
      where the integer is not a Number value itself, it stands for the
      nearest one, as a numeric literal and [JSON.parse] read it;
    - [undefined] in an optional field of a typed record is [None];
    - an [async] function is a program over an explicit world: the state of
      the HTTP transport and the chronological trace of the transport calls
      and of the timers the program awaited. *)

From stdpp Require Import base strings gmap list pretty.
From Stdlib Require Import ZArith Lia.

Local Set Warnings "-register-all".
Local Open Scope Z_scope.

(** ** JavaScript values *)

(** Primitive values. *)
Inductive JsPrim : Type :=
| JUndefined
| JNull
| JBool (b : bool)
| JNum (n : Z)
| JStr (s : string).

(** Values of type [any]: a primitive, an array, or a plain data object
    (a finite map from property names to values). *)
Inductive JsValue : Type :=
| JPrim (p : JsPrim)
| JArr (items : list JsValue)
| JObj (props : gmap string JsValue).

Coercion JPrim : JsPrim >-> JsValue.

(** ToBoolean. *)
Definition truthy (v : JsValue) : bool :=
  match v with
  | JPrim JUndefined | JPrim JNull => false
  | JPrim (JBool b) => b
  | JPrim (JNum n) => negb (n =? 0)
  | JPrim (JStr s) => negb (String.eqb s "")
  | JArr _ | JObj _ => true
  end.

(** [a || b]. *)
Definition js_or (a b : JsValue) : JsValue := if truthy a then a else b.

(** [v?.k]: [undefined] on [null] and [undefined], the property otherwise;
    primitives and arrays carry no data property of the names read here. *)
Definition opt_get (v : JsValue) (k : string) : JsValue :=
  match v with
  | JObj props => default (JPrim JUndefined) (props !! k)
  | _ => JUndefined
  end.

(** *** Number::toString

    The text of a number in radix 10: the shortest decimal that reads back
    as the same Number value, written out in full when its integer part has
    at most 21 digits and in exponent form otherwise. *)

(** The Number value nearest to a positive integer [n] (ties to the even
    mantissa), as a mantissa of at most 53 bits and a binary exponent;
    [None] is [Infinity]. *)
Definition nearest_Number (n : Z) : option (Z * Z) :=
  let bits := Z.log2 n + 1 in
  if bits <=? 53 then Some (n, 0)
  else
    let e := bits - 53 in
    let q := Z.shiftr n e in
    let r := n - Z.shiftl q e in
    let half := Z.shiftl 1 (e - 1) in
    let q' := if (half <? r) || ((r =? half) && Z.odd q) then q + 1 else q in
    let '(m, e') := if q' =? 2 ^ 53 then (2 ^ 52, e + 1) else (q', e) in
    if 971 <? e' then None else Some (m, e').

(** Whether the integer [c] reads back as the Number value [m * 2^e]: it
    lies no further from it than half the way to the next Number value on
    that side, the end points counting when the mantissa is even. *)
Definition reads_back (m e c : Z) : bool :=
  let d2 := 2 * (m * 2 ^ e) in
  let up := 2 ^ e in
  let down := if (m =? 2 ^ 52) && (0 <? e) then 2 ^ (e - 1) else 2 ^ e in
  if Z.even m
  then (d2 - down <=? 2 * c) && (2 * c <=? d2 + up)
  else (d2 - down <? 2 * c) && (2 * c <? d2 + up).

(** The multiple of the largest power of ten, [10^j] at most, that reads
    back as [m * 2^e]: the decimal with the fewest significant digits; of
    two such multiples the nearer one, and the even one when they are
    equally near. *)
Fixpoint shortest_decimal (m e : Z) (j : nat) : Z :=
  let d := m * 2 ^ e in
  match j with
  | O => d
  | S j' =>
      let p := 10 ^ Z.of_nat j in
      let c1 := d / p * p in
      let c2 := c1 + p in
      match reads_back m e c1 && (0 <? c1), reads_back m e c2 with
      | true, true =>
          if d - c1 <? c2 - d then c1
          else if c2 - d <? d - c1 then c2
          else if Z.even (c1 / p) then c1 else c2
      | true, false => c1
      | false, true => c2
      | false, false => shortest_decimal m e j'
      end
  end.

(** The digits of a decimal without its trailing zeros, last digit first. *)
Fixpoint strip_zeros (rev_digits : list Ascii.ascii) : list Ascii.ascii :=
  match rev_digits with
  | c :: rest =>
      if (Ascii.nat_of_ascii c =? 48)%nat then strip_zeros rest else rev_digits
  | [] => []
  end.

Definition positive_toString (n : Z) : string :=
  match nearest_Number n with
  | None => "Infinity"
  | Some (m, e) =>
      let c := shortest_decimal m e (String.length (pretty n)) in
      let digits := pretty c in
      let len := Z.of_nat (String.length digits) in
      if len <=? 21 then digits
      else
        match rev (strip_zeros (rev (String.list_ascii_of_string digits))) with
        | [] => digits
        | [d0] => String d0 "e+" +:+ pretty (len - 1)
        | d0 :: rest =>
            String d0 ("." +:+ String.string_of_list_ascii rest)
              +:+ "e+" +:+ pretty (len - 1)
        end
  end.

Definition Number_toString (n : Z) : string :=
  if n =? 0 then "0"
  else if n <? 0 then "-" +:+ positive_toString (- n)
  else positive_toString n.

(** ToString, as applied by [new Error(message)] to a message that is not
    [undefined]. *)
Definition prim_to_string (p : JsPrim) : string :=
  match p with
  | JUndefined => "undefined"
  | JNull => "null"
  | JBool true => "true"
  | JBool false => "false"
  | JNum n => Number_toString n
  | JStr s => s
  end.

Fixpoint js_to_string (v : JsValue) : string :=
  match v with
  | JPrim p => prim_to_string p
  | JArr items =>
      (fix join (l : list JsValue) : string :=
         match l with
         | [] => ""
         | x :: rest =>
             let sx := match x with
                       | JPrim JUndefined | JPrim JNull => ""
                       | _ => js_to_string x
                       end in
             match rest with
             | [] => sx
             | _ => sx +:+ "," +:+ join rest
             end
         end) items
  | JObj _ => "[object Object]"
  end.

(** ** The axios data types the client touches *)

Inductive Method : Type := GET | POST | PUT | DELETE.

Record File : Type := { file_name : string; file_bytes : string }.

Inductive FormValue : Type :=
| FormString (s : string)
| FormFile (f : File).

(** [FormData]: the appended entries, in order. *)
Definition FormData : Type := list (string * FormValue).

Definition FormData_new : FormData := [].
Definition FormData_append (fd : FormData) (k : string) (v : FormValue) : FormData :=
  fd ++ [(k, v)].

Inductive RequestData : Type :=
| DataValue (v : JsValue)
| DataForm (fd : FormData).

(** [AxiosRequestConfig], restricted to the fields the client reads or
    writes, plus [timeout] as a representative of the fields it only passes
    through. *)
Record AxiosRequestConfig : Type := {
  url : option string;
  method : option Method;
  data : RequestData;
  headers : option (gmap string string);
  timeout : option Z;
}.

(** The object [{}]. *)
Definition empty_config : AxiosRequestConfig :=
  {| url := None; method := None; data := DataValue JUndefined;
     headers := None; timeout := None |}.

Record AxiosResponse : Type := {
  resp_status : Z;
  resp_data : JsValue;
}.

(** [AxiosError]: [message], [code?], [response?] and whether [request] is
    set. The constructor takes the message as an optional argument:
    [new AxiosError()] has none, and its [message] reads as [undefined]
    ([None]). *)
Record AxiosError : Type := {
  err_message : option string;
  err_code : option string;
  err_response : option AxiosResponse;
  err_request : bool;
}.

(** What [apiClient.request] rejects with: an [AxiosError], or some other
    [Error] (raised by an adapter, an interceptor or a test double), whose
    [message] is a string ([new Error()] has the empty one). *)
Inductive Failure : Type :=
| AxiosErr (e : AxiosError)
| ErrorObj (msg : string).

(** What a [catch] clause can receive: a failure of the transport, or a
    primitive value ([lastError] before its first assignment is
    [undefined]). *)
Inductive Thrown : Type :=
| ThrownFailure (f : Failure)
| ThrownValue (p : JsPrim).

Coercion ThrownFailure : Failure >-> Thrown.

(** [error as AxiosError]: the cast changes nothing at run time; on a plain
    [Error] the properties [code], [response] and [request] read as
    [undefined]. *)
Definition as_AxiosError (f : Failure) : AxiosError :=
  match f with
  | AxiosErr e => e
  | ErrorObj msg =>
      {| err_message := Some msg; err_code := None;
         err_response := None; err_request := false |}
  end.

(** [error.message], as a value. *)
Definition message_of (error : AxiosError) : JsValue :=
  match err_message error with
  | Some msg => JStr msg
  | None => JUndefined
  end.

(** The [message] property [new Error(message)] sets: empty for
    [undefined], ToString of the argument otherwise. *)
Definition Error_message (message : JsValue) : string :=
  match message with
  | JPrim JUndefined => ""
  | _ => js_to_string message
  end.

(** [new Error(message)]. *)
Definition new_Error (message : JsValue) : Failure :=
  ErrorObj (Error_message message).

(** ** Retry configuration *)

Record RetryConfig : Type := {
  retries : Z;
  retryDelay : Z;
  retryCondition : option (AxiosError -> bool);
}.

(** [c === s] for an optional string [c]. *)
Definition code_is (c : option string) (s : string) : bool :=
  match c with
  | Some c' => String.eqb c' s
  | None => false
  end.

Definition DEFAULT_retryCondition (error : AxiosError) : bool :=
  match err_response error with
  | None => true
  | Some response =>
      code_is (err_code error) "ECONNABORTED"
      || code_is (err_code error) "NETWORK_ERROR"
      || ((500 <=? resp_status response) && (resp_status response <? 600))
  end.

(** [retryConfig.retryCondition?.(error)] in a condition: the call when the
    function is set, [undefined] (falsy) when it is not. *)
Definition retryCondition_call (retryConfig : RetryConfig) (error : AxiosError)
  : bool :=
  match retryCondition retryConfig with
  | Some cond => cond error
  | None => false
  end.

Definition DEFAULT_RETRY_CONFIG : RetryConfig :=
  {| retries := 3;
     retryDelay := 1000;
     retryCondition := Some DEFAULT_retryCondition |}.

(** [Partial<RetryConfig>]: [None] is an omitted field. *)
Record PartialRetryConfig : Type := {
  p_retries : option Z;
  p_retryDelay : option Z;
  p_retryCondition : option (AxiosError -> bool);
}.

Definition no_overrides : PartialRetryConfig :=
  {| p_retries := None; p_retryDelay := None; p_retryCondition := None |}.

(** ** Error normalisation *)

Record ApiError : Type := {
  message : JsValue;
  status : option Z;
  code : option string;
  details : option JsValue;
}.

Definition handleApiError (error : Thrown) : ApiError :=
  let fallback :=
    {| message := match error with
                  | ThrownFailure f => message_of (as_AxiosError f)
                  | ThrownValue _ => JStr "An unexpected error occurred"
                  end;
       status := None; code := None; details := None |} in
  match error with
  | ThrownFailure (AxiosErr axiosError) =>
      match err_response axiosError with
      | Some response =>
          let responseData := resp_data response in
          {| message :=
               js_or (opt_get responseData "message")
                 (js_or (message_of axiosError)
                        (JStr "Server error occurred"));
             status := Some (resp_status response);
             code := err_code axiosError;
             details := Some responseData |}
      | None =>
          if err_request axiosError then
            {| message := JStr "Network error - please check your connection";
               status := None;
               code := err_code axiosError;
               details := None |}
          else fallback
      end
  | _ => fallback
  end.

(** ** Programs over the transport *)

(** What the outside observes of a run: each call of [apiClient.request],
    with the configuration it was given, and each timer awaited. *)
Inductive Event : Type :=
| EvRequest (config : AxiosRequestConfig)
| EvSleep (ms : Z).

Inductive Completion (A : Type) : Type :=
| Return (a : A)
| Throw (e : Thrown).

Arguments Return {A} a.
Arguments Throw {A} e.

Record World (W : Type) : Type := {
  transport_state : W;
  trace : list Event;
}.

Arguments transport_state {W} _.
Arguments trace {W} _.

(** An [async] function returning [A]. *)
Definition Prog (W A : Type) : Type := World W -> Completion A * World W.

Section Monad.
Context {W : Type}.

#[export] Instance Prog_ret : MRet (Prog W) :=
  fun A a w => (Return a, w).

#[export] Instance Prog_bind : MBind (Prog W) :=
  fun A B k p w =>
    match p w with
    | (Return a, w') => k a w'
    | (Throw e, w') => (Throw e, w')
    end.

Definition throw {A : Type} (e : Thrown) : Prog W A :=
  fun w => (Throw e, w).

(** [try { body } catch (error) { handler }]. *)
Definition try_catch {A : Type} (body : Prog W A) (handler : Thrown -> Prog W A)
  : Prog W A :=
  fun w =>
    match body w with
    | (Return a, w') => (Return a, w')
    | (Throw e, w') => handler e w'
    end.

(** [await sleep(ms)]. *)
Definition sleep (ms : Z) : Prog W unit :=
  fun w =>
    (Return tt,
     {| transport_state := transport_state w;
        trace := trace w ++ [EvSleep ms] |}).
End Monad.

Notation "'try' body 'catch' error => handler" :=
  (try_catch body (fun error => handler))
  (at level 10, error name, body at level 100, handler at level 200,
   only parsing).

(** ** The client *)

Section Client.
Context {W : Type}.

(** [apiClient.request], interceptors included (they only log, stamp the
    configuration and reject with the error they were given): from the
    state of the transport and a request configuration, the response it
    resolves with or the failure it rejects with, and the next state. *)
Variable transport : W -> AxiosRequestConfig -> (AxiosResponse + Failure) * W.

(** [await apiClient.request(config)], with its two continuations made
    explicit: [inl] when the promise resolves, [inr] when it rejects. *)
Definition apiClient_request (config : AxiosRequestConfig)
  : Prog W (AxiosResponse + Failure) :=
  fun w =>
    let '(outcome, s) := transport (transport_state w) config in
    (Return outcome,
     {| transport_state := s; trace := trace w ++ [EvRequest config] |}).

(** The loop of [axiosRetry], entered with the counter at [attempt]. The
    body changes neither [attempt] nor [retryConfig.retries], so the loop
    [for (attempt = 0; attempt <= retries; attempt++)] runs its body for
    attempt = 0, ..., retries: the recursion is on [left], the number of
    iterations not yet started. Falling out of the loop reaches
    [throw lastError!]. *)
Fixpoint axiosRetry_from (config : AxiosRequestConfig) (retryConfig : RetryConfig)
    (left : nat) (attempt : Z) (lastError : Thrown) : Prog W AxiosResponse :=
  match left with
  | O => throw lastError
  | S left' =>
      outcome ← apiClient_request config;
      match outcome with
      | inl response => mret response
      | inr error =>
          let lastError := ThrownFailure error in
          if (attempt =? retries retryConfig)
             || negb (retryCondition_call retryConfig (as_AxiosError error))
          then throw lastError
          else
            let delay := retryDelay retryConfig * 2 ^ attempt in
            sleep delay;;
            axiosRetry_from config retryConfig left' (attempt + 1) lastError
      end
  end.

Definition axiosRetry (config : AxiosRequestConfig) (retryConfig : RetryConfig)
  : Prog W AxiosResponse :=
  axiosRetry_from config retryConfig
    (Z.to_nat (retries retryConfig + 1)) 0 (ThrownValue JUndefined).

Record ApiClient : Type := { retryConfig : RetryConfig }.

(** [new ApiClient(retryConfig)]: [{ ...DEFAULT_RETRY_CONFIG, ...retryConfig }]. *)
Definition ApiClient_new (overrides : PartialRetryConfig) : ApiClient :=
  {| retryConfig :=
       {| retries := default (retries DEFAULT_RETRY_CONFIG) (p_retries overrides);
          retryDelay :=
            default (retryDelay DEFAULT_RETRY_CONFIG) (p_retryDelay overrides);
          retryCondition :=
            match p_retryCondition overrides with
            | Some cond => Some cond
            | None => retryCondition DEFAULT_RETRY_CONFIG
            end |} |}.

(** [{ ...config }] for an optional [config]. *)
Definition spread (config : option AxiosRequestConfig) : AxiosRequestConfig :=
  default empty_config config.

Definition ApiClient_get (this : ApiClient) (url' : string)
    (config : option AxiosRequestConfig) : Prog W JsValue :=
  response ← axiosRetry
    {| url := Some url'; method := Some GET;
       data := data (spread config);
       headers := headers (spread config);
       timeout := timeout (spread config) |}
    (retryConfig this);
  mret (resp_data response).

Definition ApiClient_post (this : ApiClient) (url' : string) (data' : RequestData)
    (config : option AxiosRequestConfig) : Prog W JsValue :=
  response ← axiosRetry
    {| url := Some url'; method := Some POST;
       data := data';
       headers := headers (spread config);
       timeout := timeout (spread config) |}
    (retryConfig this);
  mret (resp_data response).

Definition ApiClient_put (this : ApiClient) (url' : string) (data' : RequestData)
    (config : option AxiosRequestConfig) : Prog W JsValue :=
  response ← axiosRetry
    {| url := Some url'; method := Some PUT;
       data := data';
       headers := headers (spread config);
       timeout := timeout (spread config) |}
    (retryConfig this);
  mret (resp_data response).

Definition ApiClient_delete (this : ApiClient) (url' : string)
    (config : option AxiosRequestConfig) : Prog W JsValue :=
  response ← axiosRetry
    {| url := Some url'; method := Some DELETE;
       data := data (spread config);
       headers := headers (spread config);
       timeout := timeout (spread config) |}
    (retryConfig this);
  mret (resp_data response).

(** [{ ...config?.headers, 'Content-Type': 'multipart/form-data' }]. *)
Definition upload_headers (config : option AxiosRequestConfig)
  : gmap string string :=
  <["Content-Type" := "multipart/form-data"]>
    (default ∅ (headers (spread config))).

Definition ApiClient_upload (this : ApiClient) (url' : string) (formData : FormData)
    (config : option AxiosRequestConfig) : Prog W JsValue :=
  response ← axiosRetry
    {| url := Some url'; method := Some POST;
       data := DataForm formData;
       headers := Some (upload_headers config);
       timeout := timeout (spread config) |}
    (retryConfig this);
  mret (resp_data response).

(** The default client instance. *)
Definition api : ApiClient := ApiClient_new no_overrides.

Definition checkApiHealth : Prog W bool :=
  try (ApiClient_get api "/health" None;; mret true)
  catch _error => mret false.

(** *** The service wrappers *)

Definition summarizeText (request : JsValue) : Prog W JsValue :=
  try ApiClient_post api "/api/summarize" (DataValue request) None
  catch error =>
    let apiError := handleApiError error in
    throw (new_Error (message apiError)).

Definition answerQuestion (request : JsValue) : Prog W JsValue :=
  try ApiClient_post api "/api/qa" (DataValue request) None
  catch error =>
    let apiError := handleApiError error in
    throw (new_Error (message apiError)).

Definition answerQuestionWithFile (question : string) (file : File)
  : Prog W JsValue :=
  try (let formData := FormData_new in
       let formData := FormData_append formData "question" (FormString question) in
       let formData := FormData_append formData "file" (FormFile file) in
       ApiClient_upload api "/api/qa" formData None)
  catch error =>
    let apiError := handleApiError error in
    throw (new_Error (message apiError)).

Definition generatePath (request : JsValue) : Prog W JsValue :=
  try ApiClient_post api "/api/learning-path" (DataValue request) None
  catch error =>
    let apiError := handleApiError error in
    throw (new_Error (message apiError)).

Definition checkHealth : Prog W JsValue :=
  try ApiClient_get api "/health" None
  catch error =>
    let apiError := handleApiError error in
    throw (new_Error (message apiError)).
End Client.

(** ** Observations on a run *)

Definition initial {W : Type} (s : W) : World W :=
  {| transport_state := s; trace := [] |}.

(** The configurations dispatched to the transport, in order. *)
Definition requests (tr : list Event) : list AxiosRequestConfig :=
  omap (fun ev => match ev with EvRequest c => Some c | EvSleep _ => None end) tr.

(** The number of transport attempts. *)
Definition attempts (tr : list Event) : nat := length (requests tr).

(** The delays awaited, in order. *)
Definition delays (tr : list Event) : list Z :=
  omap (fun ev => match ev with EvSleep ms => Some ms | EvRequest _ => None end) tr.

(** [n] failed rounds of the loop starting with the counter at [attempt]:
    a request, then the sleep that precedes the next one. *)
Fixpoint backoff_rounds (config : AxiosRequestConfig) (retryDelay : Z)
    (n : nat) (attempt : Z) : list Event :=
  match n with
  | O => []
  | S n' =>
      EvRequest config :: EvSleep (retryDelay * 2 ^ attempt)
        :: backoff_rounds config retryDelay n' (attempt + 1)
  end.

(** The delays [retryDelay * 2^attempt], [n] of them. *)
Fixpoint backoff_delays (retryDelay : Z) (n : nat) (attempt : Z) : list Z :=
  match n with
  | O => []
  | S n' => retryDelay * 2 ^ attempt :: backoff_delays retryDelay n' (attempt + 1)
  end.

(** The failure classification of the default configuration. *)
Definition transient (f : Failure) : Prop :=
  DEFAULT_retryCondition (as_AxiosError f) = true.

Section Transport.
Context {W : Type}.
Variable transport : W -> AxiosRequestConfig -> (AxiosResponse + Failure) * W.
Variable config : AxiosRequestConfig.

(** The state of the transport after [n] requests with [config]. *)
Fixpoint state_after (n : nat) (s : W) : W :=
  match n with
  | O => s
  | S n' => state_after n' (snd (transport s config))
  end.

(** How the transport answers the request number [n] (from 0). *)
Definition outcome_at (n : nat) (s : W) : AxiosResponse + Failure :=
  fst (transport (state_after n s) config).
End Transport.

(** A transport double in the manner of a chained jest mock: the answers
    of [script] one after the other, then [otherwise] for ever; its state
    is the number of calls so far. *)
Definition scripted (script : list (AxiosResponse + Failure))
    (otherwise : AxiosResponse + Failure)
  : nat -> AxiosRequestConfig -> (AxiosResponse + Failure) * nat :=
  fun calls _ => (nth calls script otherwise, S calls).

(** ** The words of the statements *)

Section Runs.
Context {W : Type}.
Variable transport : W -> AxiosRequestConfig -> (AxiosResponse + Failure) * W.
Variable cfg : AxiosRequestConfig.
Variable rc : RetryConfig.

(** The world after one more request. *)
Definition requested (w : World W) (extra : list Event) : World W :=
  {| transport_state := snd (transport (transport_state w) cfg);
     trace := trace w ++ EvRequest cfg :: extra |}.

(** The world in which attempt number [m] (from 0) has just been made,
    the [m] attempts before it having been retried. *)
Definition after_attempt (w : World W) (m : nat) : World W :=
  {| transport_state := state_after transport cfg (S m) (transport_state w);
     trace := trace w ++ backoff_rounds cfg (retryDelay rc) m 0
                ++ [EvRequest cfg] |}.

(** Every attempt before number [m] fails and is retried. *)
Definition retried_before (w : World W) (m : nat) : Prop :=
  forall i, (i < m)%nat ->
    exists f, outcome_at transport cfg i (transport_state w) = inr f
              /\ retryCondition_call rc (as_AxiosError f) = true.
End Runs.

(** The words of the specification about a failure. *)
Definition no_response (f : Failure) : Prop :=
  err_response (as_AxiosError f) = None.

Definition coded (f : Failure) (c : string) : Prop :=
  err_code (as_AxiosError f) = Some c.

Definition status_in (f : Failure) (lo hi : Z) : Prop :=
  exists response,
    err_response (as_AxiosError f) = Some response
    /\ lo <= resp_status response <= hi.

(** A failure as the axios transport settles it: a request that timed out
    or was aborted (code ECONNABORTED) and one the network failed (the
    condition's NETWORK_ERROR) received no response, so a failure that
    carries a response carries neither code (axios gives it
    ERR_BAD_REQUEST or ERR_BAD_RESPONSE, by its status). *)
Definition settled_by_axios (f : Failure) : Prop :=
  err_response (as_AxiosError f) <> None ->
  ~ coded f "ECONNABORTED" /\ ~ coded f "NETWORK_ERROR".

(** The request [api.get('/health')] dispatches. *)
Definition health_request : AxiosRequestConfig :=
  {| url := Some "/health"; method := Some GET;
     data := DataValue JUndefined; headers := None; timeout := None |}.

(** What the [try]/[catch] of a service wrapper does with the program it
    wraps: a result is passed on, a failure is replaced by a plain [Error]
    whose message is set from the normalised message. *)
Definition rewraps {W A : Type} (service wrapped : Prog W A) : Prop :=
  forall w : World W,
    match wrapped w with
    | (Return a, w') => service w = (Return a, w')
    | (Throw e, w') =>
        service w
        = (Throw (ThrownFailure
                    (ErrorObj (Error_message (message (handleApiError e))))),
           w')
    end.

(** Sample inputs. *)
Definition sample_config : AxiosRequestConfig :=
  {| url := Some "/api/qa"; method := Some POST;
     data := DataValue (JObj {[ "question" := JPrim (JStr "What is it?") ]});
     headers := None; timeout := None |}.

(** A 400 answer with body [{ message: "Bad request" }]. *)
Definition bad_request : Failure :=
  AxiosErr
    {| err_message := Some "Request failed with status code 400";
       err_code := Some "ERR_BAD_REQUEST";
       err_response :=
         Some {| resp_status := 400;
                 resp_data := JObj {[ "message" := JPrim (JStr "Bad request") ]} |};
       err_request := true |}.

(** The configuration of a caller who names the content type in lower
    case. *)
Definition lowercase_content_type : AxiosRequestConfig :=
  {| url := None; method := None; data := DataValue JUndefined;
     headers := Some {[ "content-type" := "text/plain" ]};
     timeout := None |}.

(** A request that timed out: no answer, and the code of a timeout or
    abort. *)
Definition timed_out : Failure :=
  AxiosErr
    {| err_message := Some "timeout of 30000ms exceeded";
       err_code := Some "ECONNABORTED";
       err_response := None;
       err_request := true |}.

(** [new AxiosError()]: no message, code, request or response. *)
Definition bare_AxiosError : Failure :=
  AxiosErr
    {| err_message := None; err_code := None;
       err_response := None; err_request := false |}.

(** No answer at all. *)
Definition network_error : Failure :=
  AxiosErr
    {| err_message := Some "Network Error";
       err_code := Some "ERR_NETWORK";
       err_response := None;
       err_request := true |}.

(** A 503 answer with an empty body. *)
Definition unavailable : Failure :=
  AxiosErr
    {| err_message := Some "Request failed with status code 503";
       err_code := Some "ERR_BAD_RESPONSE";
       err_response :=
         Some {| resp_status := 503; resp_data := JObj ∅ |};
       err_request := true |}.

Definition ok_response : AxiosResponse :=
  {| resp_status := 200;
     resp_data := JObj {[ "answer" := JPrim (JStr "42") ]} |}.

(** How a run ends on an answer of the transport: a response is returned,
    a failure is raised. *)
Definition completion_of (outcome : AxiosResponse + Failure)
  : Completion AxiosResponse :=
  match outcome with
  | inl response => Return response
  | inr f => Throw (ThrownFailure f)
  end.

(** The backend cannot be reached: whatever is requested, each of the four
    attempts of the default client is sent and receives no response. *)
Definition backend_unreachable {W : Type}
    (transport : W -> AxiosRequestConfig -> (AxiosResponse + Failure) * W)
    (s : W) : Prop :=
  forall cfg i, (i <= 3)%nat ->
    exists axiosError,
      outcome_at transport cfg i s = inr (AxiosErr axiosError)
      /\ err_response axiosError = None
      /\ err_request axiosError = true.

(** A service raises [Error(text)] after the four attempts of the default
    client on [cfg], with the three backoff delays between them. *)
Definition raises_after_backoff {W A : Type}
    (transport : W -> AxiosRequestConfig -> (AxiosResponse + Failure) * W)
    (service : Prog W A) (cfg : AxiosRequestConfig) (s : W) (text : string)
  : Prop :=
  service (initial s)
  = (Throw (ThrownFailure (ErrorObj text)),
     {| transport_state := state_after transport cfg 4 s;
        trace := [EvRequest cfg; EvSleep 1000;
                  EvRequest cfg; EvSleep 2000;
                  EvRequest cfg; EvSleep 4000;
                  EvRequest cfg] |}).


(** The request a POST of [api] with a JSON body dispatches. *)
Definition json_post (url' : string) (body : JsValue) : AxiosRequestConfig :=
  {| url := Some url'; method := Some POST; data := DataValue body;
     headers := None; timeout := None |}.

(** The request [answerQuestionWithFile] dispatches. *)
Definition file_post (question : string) (file : File) : AxiosRequestConfig :=
  {| url := Some "/api/qa"; method := Some POST;
     data := DataForm [("question", FormString question);
                       ("file", FormFile file)];
     headers := Some {[ "Content-Type" := "multipart/form-data" ]};
     timeout := None |}.

(** * The components that call the client

    The notification provider, the three forms and the health indicator of
    the frontend, as functions on the state of the component: what a handler
    leaves once the updates it queues are applied in program order. Values
    drawn from the environment (the id of a notification, the time of a
    check) are arguments. *)

(** ** The notification provider *)

(** [array.slice(0, end)] for an integer [end]: a negative [end] counts from
    the end of the array. *)
Definition slice_to {A : Type} (l : list A) (end_ : Z) : list A :=
  let len := Z.of_nat (length l) in
  let final := if end_ <? 0 then Z.max (len + end_) 0 else Z.min end_ len in
  take (Z.to_nat final) l.

Module NotificationProvider.

Inductive Kind : Type := success_kind | error_kind | info_kind.

(** A notification; its [message] is [None] when the caller passed
    [undefined] for it (the handlers of the components pass [err.message]). *)
Record Notification : Type := {
  id : string;
  message : option string;
  type : Kind;
  duration : option Z;
}.

(** [Omit<Notification, 'id'>]. *)
Record Draft : Type := {
  draft_message : option string;
  draft_type : Kind;
  draft_duration : option Z;
}.

(** [addNotification], as the state update it queues; [id] is the string
    drawn from [Math.random]. *)
Definition addNotification (maxNotifications : Z) (id' : string)
    (notification : Draft) (prev : list Notification) : list Notification :=
  let newNotification :=
    {| id := id';
       message := draft_message notification;
       type := draft_type notification;
       duration := draft_duration notification |} in
  let updated := newNotification :: prev in
  slice_to updated maxNotifications.

Definition removeNotification (id' : string) (prev : list Notification)
  : list Notification :=
  filter (fun notification => id notification <> id') prev.

(** [duration || 5000]. *)
Definition duration_or_5000 (duration' : option Z) : option Z :=
  match duration' with
  | Some d => if d =? 0 then Some 5000 else Some d
  | None => Some 5000
  end.

Definition success (maxNotifications : Z) (id' : string) (message' : option string)
    (duration' : option Z) : list Notification -> list Notification :=
  addNotification maxNotifications id'
    {| draft_message := message'; draft_type := success_kind;
       draft_duration := duration' |}.

Definition error (maxNotifications : Z) (id' : string) (message' : option string)
    (duration' : option Z) : list Notification -> list Notification :=
  addNotification maxNotifications id'
    {| draft_message := message'; draft_type := error_kind;
       draft_duration := duration_or_5000 duration' |}.

Definition info (maxNotifications : Z) (id' : string) (message' : option string)
    (duration' : option Z) : list Notification -> list Notification :=
  addNotification maxNotifications id'
    {| draft_message := message'; draft_type := info_kind;
       draft_duration := duration' |}.

End NotificationProvider.

(** ** Texts typed into a form *)

(** A text is a sequence of UTF-16 code units; the texts of the model are
    those whose code units are below 256, one [Ascii.ascii] each. The white space
    and line terminators of ECMAScript in that range: TAB, LF, VT, FF, CR,
    SPACE and NO-BREAK SPACE. *)
Definition is_whitespace (c : Ascii.ascii) : bool :=
  match Ascii.nat_of_ascii c with
  | 9%nat | 10%nat | 11%nat | 12%nat | 13%nat | 32%nat | 160%nat => true
  | _ => false
  end.

Fixpoint trim_start (l : list Ascii.ascii) : list Ascii.ascii :=
  match l with
  | [] => []
  | c :: rest => if is_whitespace c then trim_start rest else l
  end.

(** [text.trim()]. *)
Definition js_trim (text : string) : string :=
  String.string_of_list_ascii
    (rev (trim_start (rev (trim_start (String.list_ascii_of_string text))))).

(** [!text.trim()]. *)
Definition blank (text : string) : bool := String.eqb (js_trim text) "".

(** [text.length]. *)
Definition js_length (text : string) : Z := Z.of_nat (String.length text).

(** ** The summarization form *)

Module Summarization.

Inductive Style : Type := concise | detailed | bullet_points.

Definition Style_string (style : Style) : string :=
  match style with
  | concise => "concise"
  | detailed => "detailed"
  | bullet_points => "bullet-points"
  end.

Record FormData : Type := {
  text : string;
  maxLength : Z;
  style : Style;
}.

Record FormErrors : Type := {
  errors_text : option string;
  errors_maxLength : option string;
}.

(** The object [{}]. *)
Definition no_errors : FormErrors :=
  {| errors_text := None; errors_maxLength := None |}.

(** The state of the component; [apiError] is [None] for [null], and for
    the [undefined] that the [message] of an error without one leaves. *)
Record State : Type := {
  formData : FormData;
  errors : FormErrors;
  isLoading : bool;
  result : option JsValue;
  apiError : option string;
}.

(** [validateForm]: the errors it passes to [setErrors] and the boolean it
    returns, [Object.keys(newErrors).length === 0]. *)
Definition validateForm (formData' : FormData) : FormErrors * bool :=
  let newErrors_text :=
    if blank (text formData') then Some "Text is required"
    else if js_length (text formData') <? 10
         then Some "Text must be at least 10 characters long"
    else if js_length (text formData') >? 10000
         then Some "Text must be less than 10,000 characters"
    else None in
  let newErrors_maxLength :=
    if (maxLength formData' <? 50) || (maxLength formData' >? 500)
    then Some "Summary length must be between 50 and 500 characters"
    else None in
  let newErrors :=
    {| errors_text := newErrors_text; errors_maxLength := newErrors_maxLength |} in
  (newErrors,
   match newErrors_text, newErrors_maxLength with
   | None, None => true
   | _, _ => false
   end).

(** [disabled={isLoading || !formData.text.trim()}] of the submit button. *)
Definition submit_disabled (st : State) : bool :=
  isLoading st || blank (text (formData st)).

(** The request object built by [handleSubmit]. *)
Definition request_of (formData' : FormData) : JsValue :=
  JObj {[ "text" := JPrim (JStr (text formData'));
          "max_length" := JPrim (JNum (maxLength formData'));
          "style" := JPrim (JStr (Style_string (style formData'))) ]}.

(** [handleSubmit], as the state of the component and the notifications on
    display once its updates are applied, in program order. [id'] is the id
    drawn for the notification it adds. *)
Definition handleSubmit {W : Type}
    (transport : W -> AxiosRequestConfig -> (AxiosResponse + Failure) * W)
    (maxNotifications : Z) (id' : string)
    (st : State) (shown : list NotificationProvider.Notification)
    (w : World W)
  : State * list NotificationProvider.Notification * World W :=
  let '(newErrors, valid) := validateForm (formData st) in
  if negb valid then
    ({| formData := formData st; errors := newErrors;
        isLoading := isLoading st; result := result st;
        apiError := apiError st |},
     shown, w)
  else
    match summarizeText transport (request_of (formData st)) w with
    | (Return response, w') =>
        ({| formData := formData st; errors := newErrors;
            isLoading := false; result := Some response;
            apiError := None |},
         NotificationProvider.success maxNotifications id'
           (Some "Text summarized successfully!") None shown,
         w')
    | (Throw err, w') =>
        let errorMessage :=
          match err with
          | ThrownFailure f => err_message (as_AxiosError f)
          | ThrownValue _ => Some "An unexpected error occurred. Please try again."
          end in
        ({| formData := formData st; errors := newErrors;
            isLoading := false; result := None;
            apiError := errorMessage |},
         NotificationProvider.error maxNotifications id' errorMessage None shown,
         w')
    end.

End Summarization.

(** ** The question form *)

Module QA.

Inductive InputMode : Type := text_mode | file_mode.

(** A [File] chosen in the form, with its [type] attribute; its [size] is
    the number of its bytes. *)
Record SelectedFile : Type := {
  the_file : File;
  file_type : string;
}.

Definition file_size (file : SelectedFile) : Z :=
  Z.of_nat (String.length (file_bytes (the_file file))).

Record FormData : Type := {
  question : string;
  documentText : string;
  file : option SelectedFile;
  inputMode : InputMode;
}.

Record FormErrors : Type := {
  errors_question : option string;
  errors_document : option string;
  errors_file : option string;
}.

Definition no_errors : FormErrors :=
  {| errors_question := None; errors_document := None; errors_file := None |}.

Record State : Type := {
  formData : FormData;
  errors : FormErrors;
  isLoading : bool;
  result : option JsValue;
  apiError : option string;
}.

Definition validateForm (formData' : FormData) : FormErrors * bool :=
  let newErrors_question :=
    if blank (question formData') then Some "Question is required"
    else if js_length (question formData') <? 5
         then Some "Question must be at least 5 characters long"
    else if js_length (question formData') >? 500
         then Some "Question must be less than 500 characters"
    else None in
  let newErrors_document :=
    match inputMode formData' with
    | text_mode =>
        if blank (documentText formData') then Some "Document text is required"
        else if js_length (documentText formData') <? 10
             then Some "Document text must be at least 10 characters long"
        else None
    | file_mode => None
    end in
  let newErrors_file :=
    match inputMode formData' with
    | text_mode => None
    | file_mode =>
        match file formData' with
        | None => Some "Please select a file to upload"
        | Some chosen =>
            if file_size chosen >? 10 * 1024 * 1024
            then Some "File size must be less than 10MB"
            else if negb (String.prefix "text/" (file_type chosen))
                 then Some "Only text files are supported"
            else None
        end
    end in
  let newErrors :=
    {| errors_question := newErrors_question;
       errors_document := newErrors_document;
       errors_file := newErrors_file |} in
  (newErrors,
   match newErrors_question, newErrors_document, newErrors_file with
   | None, None, None => true
   | _, _, _ => false
   end).

(** [isFormValid], as a condition. *)
Definition isFormValid (formData' : FormData) : bool :=
  negb (blank (question formData'))
  && match inputMode formData' with
     | text_mode => negb (blank (documentText formData'))
     | file_mode => match file formData' with Some _ => true | None => false end
     end.

(** [disabled={isLoading || !isFormValid}] of the submit button. *)
Definition submit_disabled (st : State) : bool :=
  isLoading st || negb (isFormValid (formData st)).

(** The request object of the text mode. *)
Definition request_of (formData' : FormData) : JsValue :=
  JObj {[ "question" := JPrim (JStr (question formData'));
          "document_text" := JPrim (JStr (documentText formData')) ]}.

(** The service call of [handleSubmit]. *)
Definition ask {W : Type}
    (transport : W -> AxiosRequestConfig -> (AxiosResponse + Failure) * W)
    (formData' : FormData) : Prog W JsValue :=
  match inputMode formData', file formData' with
  | file_mode, Some chosen =>
      answerQuestionWithFile transport (question formData') (the_file chosen)
  | _, _ => answerQuestion transport (request_of formData')
  end.

Definition handleSubmit {W : Type}
    (transport : W -> AxiosRequestConfig -> (AxiosResponse + Failure) * W)
    (maxNotifications : Z) (id' : string)
    (st : State) (shown : list NotificationProvider.Notification)
    (w : World W)
  : State * list NotificationProvider.Notification * World W :=
  let '(newErrors, valid) := validateForm (formData st) in
  if negb valid then
    ({| formData := formData st; errors := newErrors;
        isLoading := isLoading st; result := result st;
        apiError := apiError st |},
     shown, w)
  else
    match ask transport (formData st) w with
    | (Return response, w') =>
        ({| formData := formData st; errors := newErrors;
            isLoading := false; result := Some response;
            apiError := None |},
         NotificationProvider.success maxNotifications id'
           (Some "Question answered successfully!") None shown,
         w')
    | (Throw err, w') =>
        let errorMessage :=
          match err with
          | ThrownFailure f => err_message (as_AxiosError f)
          | ThrownValue _ => Some "An unexpected error occurred. Please try again."
          end in
        ({| formData := formData st; errors := newErrors;
            isLoading := false; result := None;
            apiError := errorMessage |},
         NotificationProvider.error maxNotifications id' errorMessage None shown,
         w')
    end.

(** [handleModeChange]. *)
Definition handleModeChange (mode : InputMode) (st : State) : State :=
  {| formData :=
       {| question := question (formData st);
          documentText := "";
          file := None;
          inputMode := mode |};
     errors := no_errors;
     isLoading := isLoading st;
     result := result st;
     apiError := apiError st |}.

End QA.

(** ** The learning path form and its progress tracking *)

(** An array of booleans that may have holes ([None]), as an assignment
    past its end leaves them. *)
Abbreviation BoolArray := (list (option bool)).

(** [new Array(n).fill(false)]. *)
Definition Array_fill_false (n : nat) : BoolArray := replicate n (Some false).

(** [array[i]] in a condition: a hole and an index past the end read as
    [undefined], which is falsy. *)
Definition Array_get (array : BoolArray) (i : nat) : bool :=
  match array !! i with
  | Some (Some b) => b
  | _ => false
  end.

(** [array[i] = value]: past the end the array is extended, with holes
    before the new element. *)
Definition Array_set (array : BoolArray) (i : nat) (value : bool) : BoolArray :=
  if decide (i < length array)%nat then <[i := Some value]> array
  else array ++ replicate (i - length array) None ++ [Some value].

(** [array.every(Boolean)]: holes are skipped. *)
Definition Array_every (array : BoolArray) : bool :=
  forallb (fun element => match element with Some b => b | None => true end)
    array.

Module LearningPath.

Record LearningPhase : Type := {
  phase_number : Z;
  objectives : list string;
  activities : list string;
}.

Record Progress : Type := {
  completed : bool;
  completedObjectives : BoolArray;
  completedActivities : BoolArray;
}.

(** [validateForm]: the error of the goals, if any, and the boolean
    returned. *)
Definition validateForm (goals : string) : option string * bool :=
  let newErrors_goals :=
    if blank goals then Some "Learning goals are required"
    else if js_length goals <? 10
         then Some "Please provide more detailed learning goals (at least 10 characters)"
    else if js_length goals >? 1000
         then Some "Learning goals must be less than 1,000 characters"
    else None in
  (newErrors_goals,
   match newErrors_goals with None => true | Some _ => false end).

(** [addFocusArea], [removeFocusArea] and [addCustomFocusArea], as the new
    value of [formData.focusAreas] (and of [customFocusArea]). *)
Definition addFocusArea (area : string) (focusAreas : list string)
  : list string :=
  if negb (String.eqb area "") && negb (bool_decide (area ∈ focusAreas))
  then focusAreas ++ [area]
  else focusAreas.

Definition removeFocusArea (area : string) (focusAreas : list string)
  : list string :=
  filter (fun a => a <> area) focusAreas.

Definition addCustomFocusArea (customFocusArea : string)
    (focusAreas : list string) : list string * string :=
  if negb (blank customFocusArea)
  then (addFocusArea (js_trim customFocusArea) focusAreas, "")
  else (focusAreas, customFocusArea).

(** [togglePhaseExpansion], as the new set. *)
Definition togglePhaseExpansion (phaseNumber : Z) (expandedPhases : gset Z)
  : gset Z :=
  if bool_decide (phaseNumber ∈ expandedPhases)
  then expandedPhases ∖ {[ phaseNumber ]}
  else expandedPhases ∪ {[ phaseNumber ]}.

(** [result?.phases.find(p => p.phase_number === phaseNumber)]. *)
Definition find_phase (result : option (list LearningPhase)) (phaseNumber : Z)
  : option LearningPhase :=
  match result with
  | Some phases =>
      List.find (fun p => phase_number p =? phaseNumber) phases
  | None => None
  end.

(** The entry created for a phase that has none. *)
Definition fresh_progress (result : option (list LearningPhase))
    (phaseNumber : Z) : Progress :=
  {| completed := false;
     completedObjectives :=
       Array_fill_false
         (match find_phase result phaseNumber with
          | Some phase => length (objectives phase)
          | None => 0
          end);
     completedActivities :=
       Array_fill_false
         (match find_phase result phaseNumber with
          | Some phase => length (activities phase)
          | None => 0
          end) |}.

(** The check that ends both toggles. *)
Definition recheck (result : option (list LearningPhase)) (phaseNumber : Z)
    (entry : Progress) : Progress :=
  match find_phase result phaseNumber with
  | Some _ =>
      {| completed :=
           Array_every (completedObjectives entry)
           && Array_every (completedActivities entry);
         completedObjectives := completedObjectives entry;
         completedActivities := completedActivities entry |}
  | None => entry
  end.

(** [toggleObjectiveCompletion] and [toggleActivityCompletion], as the
    state their updater returns for the state [prev] it receives. *)
Definition toggleObjectiveCompletion (result : option (list LearningPhase))
    (phaseNumber : Z) (objectiveIndex : nat) (prev : gmap Z Progress)
  : gmap Z Progress :=
  let entry := default (fresh_progress result phaseNumber) (prev !! phaseNumber) in
  let entry :=
    {| completed := completed entry;
       completedObjectives :=
         Array_set (completedObjectives entry) objectiveIndex
           (negb (Array_get (completedObjectives entry) objectiveIndex));
       completedActivities := completedActivities entry |} in
  <[phaseNumber := recheck result phaseNumber entry]> prev.

Definition toggleActivityCompletion (result : option (list LearningPhase))
    (phaseNumber : Z) (activityIndex : nat) (prev : gmap Z Progress)
  : gmap Z Progress :=
  let entry := default (fresh_progress result phaseNumber) (prev !! phaseNumber) in
  let entry :=
    {| completed := completed entry;
       completedObjectives := completedObjectives entry;
       completedActivities :=
         Array_set (completedActivities entry) activityIndex
           (negb (Array_get (completedActivities entry) activityIndex)) |} in
  <[phaseNumber := recheck result phaseNumber entry]> prev.

End LearningPath.

(** ** The health indicator *)

Module HealthCheck.

Inductive Status : Type := checking | healthy | unhealthy.

(** The status on display; [message] is [None] when [undefined] was
    stored. *)
Record HealthStatus : Type := {
  status : Status;
  message : option string;
  lastChecked : option Z;
}.

(** [checkHealth] of the component, as the status and the notifications on
    display once the check has completed; [now] is the time read by
    [new Date()] at that point and [id'] the id drawn for the notification. *)
Definition checkHealth {W : Type}
    (transport : W -> AxiosRequestConfig -> (AxiosResponse + Failure) * W)
    (maxNotifications : Z) (id' : string) (now : Z)
    (shown : list NotificationProvider.Notification) (w : World W)
  : HealthStatus * list NotificationProvider.Notification * World W :=
  match checkHealth transport w with
  | (Return _, w') =>
      ({| status := healthy;
          message := Some "Backend is running and accessible";
          lastChecked := Some now |},
       shown, w')
  | (Throw err, w') =>
      let errorMessage :=
        match err with
        | ThrownFailure f => err_message (as_AxiosError f)
        | ThrownValue _ => Some "Backend is not accessible"
        end in
      ({| status := unhealthy;
          message := errorMessage;
          lastChecked := Some now |},
       NotificationProvider.error maxNotifications id'
         (Some ("Backend health check failed: "
                +:+ default "undefined" errorMessage))
         None shown,
       w')
  end.

End HealthCheck.


(** The question form with a question and a text file chosen. *)
Definition filled_question : QA.State :=
  {| QA.formData :=
       {| QA.question := "What is it about?";
          QA.documentText := "";
          QA.file :=
            Some {| QA.the_file :=
                      {| file_name := "notes.txt";
                         file_bytes := "It is about retries." |};
                    QA.file_type := "text/plain" |};
          QA.inputMode := QA.file_mode |};
     QA.errors := QA.no_errors;
     QA.isLoading := false;
     QA.result := None;
     QA.apiError := None |}.

(** The summarization form as it is first shown, and filled in. *)
Definition empty_summarization : Summarization.State :=
  {| Summarization.formData :=
       {| Summarization.text := ""; Summarization.maxLength := 150;
          Summarization.style := Summarization.concise |};
     Summarization.errors := Summarization.no_errors;
     Summarization.isLoading := false;
     Summarization.result := None;
     Summarization.apiError := None |}.


(** A phase with two objectives and one activity. *)
Definition sample_phase : LearningPath.LearningPhase :=
  {| LearningPath.phase_number := 1;
     LearningPath.objectives := ["Read the guide"; "Write a client"];
     LearningPath.activities := ["Build a demo"] |}.

(** Its progress when nothing is completed. *)
Definition sample_progress : LearningPath.Progress :=
  {| LearningPath.completed := false;
     LearningPath.completedObjectives := [Some false; Some false];
     LearningPath.completedActivities := [Some false] |}.

(** A notification on display. *)
Definition sample_notification : NotificationProvider.Notification :=
  {| NotificationProvider.id := "a";
     NotificationProvider.message := Some "first";
     NotificationProvider.type := NotificationProvider.info_kind;
     NotificationProvider.duration := None |}.

(** * Properties *)

(** ** Observations *)

Lemma requests_app (a b : list Event) : requests (a ++ b) = requests a ++ requests b.
Proof. apply omap_app. Qed.

Lemma delays_app (a b : list Event) : delays (a ++ b) = delays a ++ delays b.
Proof. apply omap_app. Qed.

Lemma attempts_app (a b : list Event) :
  attempts (a ++ b) = (attempts a + attempts b)%nat.
Proof. unfold attempts. by rewrite requests_app, length_app. Qed.

Lemma requests_backoff_rounds cfg d n a :
  requests (backoff_rounds cfg d n a) = replicate n cfg.
Proof.
  revert a. induction n as [|n IH]; intros a; [done|].
  cbn [backoff_rounds replicate]. unfold requests in *. cbn. by rewrite IH.
Qed.

Lemma attempts_backoff_rounds cfg d n a :
  attempts (backoff_rounds cfg d n a) = n.
Proof. unfold attempts. by rewrite requests_backoff_rounds, length_replicate. Qed.

Lemma delays_backoff_rounds cfg d n a :
  delays (backoff_rounds cfg d n a) = backoff_delays d n a.
Proof.
  revert a. induction n as [|n IH]; intros a; [done|].
  cbn [backoff_rounds backoff_delays]. unfold delays in *. cbn. by rewrite IH.
Qed.

Lemma state_after_S {W} (transport : W -> AxiosRequestConfig -> _ * W) cfg n s :
  state_after transport cfg (S n) s
  = snd (transport (state_after transport cfg n s) cfg).
Proof. revert s. induction n as [|n IH]; intros s; [done|]. cbn. apply (IH _). Qed.

(** ** The retry loop, one iteration at a time *)

Section Loop.
Context {W : Type}.
Variable transport : W -> AxiosRequestConfig -> (AxiosResponse + Failure) * W.
Variable cfg : AxiosRequestConfig.
Variable rc : RetryConfig.

Lemma axiosRetry_from_resolves left attempt le w response :
  fst (transport (transport_state w) cfg) = inl response ->
  axiosRetry_from transport cfg rc (S left) attempt le w
  = (Return response, requested transport cfg w []).
Proof.
  unfold requested. intros Hout. cbn [axiosRetry_from].
  unfold mbind, Prog_bind, apiClient_request.
  destruct (transport (transport_state w) cfg) as [outcome s].
  cbn in Hout. subst outcome. reflexivity.
Qed.

Lemma axiosRetry_from_gives_up left attempt le w f :
  fst (transport (transport_state w) cfg) = inr f ->
  attempt = retries rc \/ retryCondition_call rc (as_AxiosError f) = false ->
  axiosRetry_from transport cfg rc (S left) attempt le w
  = (Throw (ThrownFailure f), requested transport cfg w []).
Proof.
  unfold requested. intros Hout Hstop. cbn [axiosRetry_from].
  unfold mbind, Prog_bind, apiClient_request.
  destruct (transport (transport_state w) cfg) as [outcome s].
  cbn in Hout. subst outcome.
  assert ((attempt =? retries rc)
          || negb (retryCondition_call rc (as_AxiosError f)) = true) as ->.
  { destruct Hstop as [-> | ->]; [rewrite Z.eqb_refl; done|].
    by rewrite orb_true_r. }
  reflexivity.
Qed.

Lemma axiosRetry_from_retries left attempt le w f :
  fst (transport (transport_state w) cfg) = inr f ->
  attempt <> retries rc ->
  retryCondition_call rc (as_AxiosError f) = true ->
  axiosRetry_from transport cfg rc (S left) attempt le w
  = axiosRetry_from transport cfg rc left (attempt + 1) (ThrownFailure f)
      (requested transport cfg w [EvSleep (retryDelay rc * 2 ^ attempt)]).
Proof.
  unfold requested. intros Hout Hne Hretry. cbn [axiosRetry_from].
  unfold mbind, Prog_bind, apiClient_request.
  destruct (transport (transport_state w) cfg) as [outcome s].
  cbn in Hout. subst outcome.
  apply Z.eqb_neq in Hne. rewrite Hne, Hretry. cbn.
  unfold sleep. cbn. by rewrite <- app_assoc.
Qed.

(** [n] retried rounds in a row. *)
Lemma axiosRetry_from_rounds n : forall left attempt le w,
  (0 < n)%nat ->
  attempt + Z.of_nat n <= retries rc ->
  (forall i, (i < n)%nat ->
     exists f, outcome_at transport cfg i (transport_state w) = inr f
               /\ retryCondition_call rc (as_AxiosError f) = true) ->
  exists f,
    outcome_at transport cfg (pred n) (transport_state w) = inr f /\
    axiosRetry_from transport cfg rc (n + left) attempt le w
    = axiosRetry_from transport cfg rc left (attempt + Z.of_nat n)
        (ThrownFailure f)
        {| transport_state := state_after transport cfg n (transport_state w);
           trace := trace w ++ backoff_rounds cfg (retryDelay rc) n attempt |}.
Proof.
  induction n as [|n IH]; intros left attempt le w Hpos Hle Hall; [lia|].
  destruct (Hall 0%nat ltac:(lia)) as (f0 & Hf0 & Hr0).
  change (S n + left)%nat with (S (n + left)).
  rewrite (axiosRetry_from_retries _ _ _ _ f0); [|exact Hf0|lia|exact Hr0].
  destruct n as [|n].
  - exists f0. split; [exact Hf0|].
    reflexivity.
  - destruct (IH left (attempt + 1) (ThrownFailure f0)
                (requested transport cfg w [EvSleep (retryDelay rc * 2 ^ attempt)]))
      as (f & Hf & Hrun); [lia|lia| |].
    { intros i Hi. apply (Hall (S i)). lia. }
    exists f. split; [exact Hf|].
    rewrite Hrun. unfold requested. cbn [transport_state trace].
    replace (attempt + Z.of_nat (S (S n))) with (attempt + 1 + Z.of_nat (S n))
      by lia.
    rewrite <- app_assoc. reflexivity.
Qed.
End Loop.

(** ** [axiosRetry] as a whole *)

Section Retry.
Context {W : Type}.
Variable transport : W -> AxiosRequestConfig -> (AxiosResponse + Failure) * W.
Variable cfg : AxiosRequestConfig.
Variable rc : RetryConfig.

Lemma axiosRetry_rounds w m :
  Z.of_nat m <= retries rc ->
  retried_before transport cfg rc w m ->
  exists le,
    axiosRetry transport cfg rc w
    = axiosRetry_from transport cfg rc (S (Z.to_nat (retries rc) - m))
        (Z.of_nat m) le
        {| transport_state := state_after transport cfg m (transport_state w);
           trace := trace w ++ backoff_rounds cfg (retryDelay rc) m 0 |}.
Proof.
  intros Hm Hall. unfold axiosRetry.
  replace (Z.to_nat (retries rc + 1))
    with (m + S (Z.to_nat (retries rc) - m))%nat by lia.
  destruct m as [|m].
  - exists (ThrownValue JUndefined). cbn [backoff_rounds state_after Nat.add].
    rewrite app_nil_r. by destruct w.
  - destruct (axiosRetry_from_rounds transport cfg rc (S m)
                (S (Z.to_nat (retries rc) - S m)) 0 (ThrownValue JUndefined) w)
      as (f & _ & Hrun); [lia|lia|exact Hall|].
    exists (ThrownFailure f). rewrite Hrun. by rewrite Z.add_0_l.
Qed.

Lemma requested_after_rounds w m :
  requested transport cfg
    {| transport_state := state_after transport cfg m (transport_state w);
       trace := trace w ++ backoff_rounds cfg (retryDelay rc) m 0 |} []
  = after_attempt transport cfg rc w m.
Proof.
  unfold requested, after_attempt. cbn [transport_state trace].
  by rewrite state_after_S, <- app_assoc.
Qed.

(** The attempt number [m] resolves. *)
Lemma axiosRetry_resolves w m response :
  Z.of_nat m <= retries rc ->
  retried_before transport cfg rc w m ->
  outcome_at transport cfg m (transport_state w) = inl response ->
  axiosRetry transport cfg rc w
  = (Return response, after_attempt transport cfg rc w m).
Proof.
  intros Hm Hall Hout.
  destruct (axiosRetry_rounds w m Hm Hall) as (le & ->).
  rewrite (axiosRetry_from_resolves _ _ _ _ _ _ _ response); [|exact Hout].
  by rewrite requested_after_rounds.
Qed.

(** The attempt number [m] fails and is not retried. *)
Lemma axiosRetry_rejects w m f :
  Z.of_nat m <= retries rc ->
  retried_before transport cfg rc w m ->
  outcome_at transport cfg m (transport_state w) = inr f ->
  Z.of_nat m = retries rc \/ retryCondition_call rc (as_AxiosError f) = false ->
  axiosRetry transport cfg rc w
  = (Throw (ThrownFailure f), after_attempt transport cfg rc w m).
Proof.
  intros Hm Hall Hout Hstop.
  destruct (axiosRetry_rounds w m Hm Hall) as (le & ->).
  rewrite (axiosRetry_from_gives_up _ _ _ _ _ _ _ f); [|exact Hout|exact Hstop].
  by rewrite requested_after_rounds.
Qed.

Lemma attempts_after_attempt w m :
  attempts (trace (after_attempt transport cfg rc w m))
  = (attempts (trace w) + S m)%nat.
Proof.
  unfold after_attempt. cbn [trace].
  rewrite !attempts_app, attempts_backoff_rounds. cbn. lia.
Qed.

Lemma delays_after_attempt w m :
  delays (trace (after_attempt transport cfg rc w m))
  = delays (trace w) ++ backoff_delays (retryDelay rc) m 0.
Proof.
  unfold after_attempt. cbn [trace].
  rewrite !delays_app, delays_backoff_rounds. cbn. by rewrite app_nil_r.
Qed.

(** Whatever the transport does, a run only appends to the trace, and what
    it appends is requests with [cfg] and sleeps. *)
Lemma axiosRetry_from_trace left : forall attempt le w,
  exists added,
    trace (snd (axiosRetry_from transport cfg rc left attempt le w))
    = trace w ++ added
    /\ requests added = replicate (attempts added) cfg
    /\ ((0 < left)%nat -> (0 < attempts added)%nat).
Proof.
  induction left as [|left IH]; intros attempt le w.
  - exists []. cbn. rewrite app_nil_r. repeat split. lia.
  - cbn [axiosRetry_from]. unfold mbind, Prog_bind, apiClient_request.
    destruct (transport (transport_state w) cfg) as [[response|f] s].
    + exists [EvRequest cfg]. cbn. repeat split. lia.
    + destruct ((attempt =? retries rc)
                || negb (retryCondition_call rc (as_AxiosError f))).
      * exists [EvRequest cfg]. cbn. repeat split. lia.
      * cbn. match goal with
             | |- context [axiosRetry_from _ _ _ _ ?a ?l ?w'] =>
                 destruct (IH a l w') as (added & Htr & Hreq & _)
             end.
        exists (EvRequest cfg :: EvSleep (retryDelay rc * 2 ^ attempt) :: added).
        rewrite Htr. cbn [trace]. split; [|split].
        -- rewrite <- !app_assoc. reflexivity.
        -- unfold attempts in *. cbn. by rewrite Hreq at 1.
        -- intros _. unfold attempts. cbn. lia.
Qed.

(** When every attempt is rejected, the run raises. *)
Lemma axiosRetry_from_all_rejected left : forall attempt le w,
  (forall i, (i < left)%nat ->
     exists f, outcome_at transport cfg i (transport_state w) = inr f) ->
  exists e, fst (axiosRetry_from transport cfg rc left attempt le w) = Throw e.
Proof.
  induction left as [|left IH]; intros attempt le w Hall.
  - by exists le.
  - destruct (Hall 0%nat ltac:(lia)) as (f & Hf).
    destruct (decide (attempt = retries rc)) as [Heq|Hne].
    { exists (ThrownFailure f).
      rewrite (axiosRetry_from_gives_up _ _ _ _ _ _ _ f); auto. }
    destruct (retryCondition_call rc (as_AxiosError f)) eqn:Hcall.
    + rewrite (axiosRetry_from_retries _ _ _ _ _ _ _ f); auto.
      apply IH. intros i Hi. apply (Hall (S i)). lia.
    + exists (ThrownFailure f).
      rewrite (axiosRetry_from_gives_up _ _ _ _ _ _ _ f); auto.
Qed.

Lemma axiosRetry_all_rejected w :
  (forall i, (i <= Z.to_nat (retries rc))%nat ->
     exists f, outcome_at transport cfg i (transport_state w) = inr f) ->
  exists e, fst (axiosRetry transport cfg rc w) = Throw e.
Proof.
  intros Hall. apply axiosRetry_from_all_rejected.
  intros i Hi. apply Hall. lia.
Qed.
End Retry.

(** ** Failure classification *)

Lemma code_is_true c s : code_is c s = true <-> c = Some s.
Proof.
  destruct c as [c|]; cbn; [|split; discriminate].
  rewrite String.eqb_eq. split; congruence.
Qed.

Lemma transient_iff f :
  transient f <->
  no_response f \/ coded f "ECONNABORTED" \/ coded f "NETWORK_ERROR"
  \/ status_in f 500 599.
Proof.
  unfold transient, DEFAULT_retryCondition, no_response, coded, status_in.
  destruct (err_response (as_AxiosError f)) as [r|] eqn:Hr.
  - rewrite !orb_true_iff, andb_true_iff, !code_is_true, Z.leb_le, Z.ltb_lt.
    split.
    + intros [[H|H]|[H1 H2]]; [tauto|tauto|].
      right; right; right. exists r. split; [done|lia].
    + intros [H|[H|[H|(r' & Heq & Hrange)]]]; [done|tauto|tauto|].
      inversion Heq; subst r'. right. lia.
  - split; [by left|done].
Qed.

Lemma no_response_transient f : no_response f -> transient f.
Proof. intros H. apply transient_iff. by left. Qed.

Lemma server_error_transient f : status_in f 500 599 -> transient f.
Proof. intros H. apply transient_iff. by do 3 right. Qed.

Lemma client_error_not_transient f :
  status_in f 400 499 ->
  ~ coded f "ECONNABORTED" -> ~ coded f "NETWORK_ERROR" ->
  ~ transient f.
Proof.
  intros (r & Hr & Hrange) Hc1 Hc2 Ht. apply transient_iff in Ht.
  destruct Ht as [H|[H|[H|(r' & Hr' & Hrange')]]]; [|done|done|].
  - unfold no_response in H. congruence.
  - rewrite Hr in Hr'. inversion Hr'; subst r'. lia.
Qed.

Lemma retryCondition_call_default rc f :
  retryCondition rc = Some DEFAULT_retryCondition ->
  retryCondition_call rc (as_AxiosError f) = true <-> transient f.
Proof. intros H. unfold retryCondition_call, transient. by rewrite H. Qed.

Lemma retried_before_default {W} (transport : W -> _ -> _ * W) cfg rc w m :
  retryCondition rc = Some DEFAULT_retryCondition ->
  (forall i, (i < m)%nat ->
     exists f, outcome_at transport cfg i (transport_state w) = inr f
               /\ transient f) ->
  retried_before transport cfg rc w m.
Proof.
  intros Hrc Hall i Hi. destruct (Hall i Hi) as (f & Hf & Ht).
  exists f. split; [done|]. by apply retryCondition_call_default.
Qed.

Lemma settled_transient_iff f :
  settled_by_axios f ->
  transient f <->
  no_response f \/ coded f "ECONNABORTED" \/ status_in f 500 599.
Proof.
  intros Hsettled. rewrite transient_iff. split; [|tauto].
  intros [H|[H|[H|H]]]; [tauto|tauto| |tauto].
  destruct (err_response (as_AxiosError f)) as [r|] eqn:Hr; [|by left].
  exfalso. unfold settled_by_axios in Hsettled. rewrite Hr in Hsettled.
  destruct Hsettled as [_ Hcode]; [done|]. by apply Hcode.
Qed.

Lemma settled_client_error_not_transient f :
  settled_by_axios f -> status_in f 400 499 -> ~ transient f.
Proof.
  intros Hsettled H4. pose proof H4 as (r & Hr & _).
  unfold settled_by_axios in Hsettled. rewrite Hr in Hsettled.
  destruct Hsettled as [Hc1 Hc2]; [done|].
  by apply client_error_not_transient.
Qed.

(** C1: for a failure as axios settles it (the code of a timeout or abort
    comes without a response), the failure is transient if and only if no
    response was received, or the transport reports a timeout or abort
    (code ECONNABORTED), or a response was received with status in
    [500,599]; and when the failure of the first attempt carries a response
    with status in [400,499], or is not transient for another reason, the
    client (default retry condition, retries >= 0) makes exactly one
    transport attempt, awaits no delay and raises that failure. *)
Theorem non_transient_raises_at_once {W : Type}
    (transport : W -> AxiosRequestConfig -> (AxiosResponse + Failure) * W)
    (cfg : AxiosRequestConfig) (rc : RetryConfig) (s : W) (f : Failure) :
  0 <= retries rc ->
  retryCondition rc = Some DEFAULT_retryCondition ->
  outcome_at transport cfg 0 s = inr f ->
  settled_by_axios f ->
  (transient f <->
     no_response f \/ coded f "ECONNABORTED" \/ status_in f 500 599)
  /\ (status_in f 400 499 \/ ~ transient f ->
      let run := axiosRetry transport cfg rc (initial s) in
      fst run = Throw (ThrownFailure f)
      /\ attempts (trace (snd run)) = 1%nat
      /\ delays (trace (snd run)) = []
      /\ trace (snd run) = [EvRequest cfg]).
Proof.
  intros Hretries Hrc Hout Hsettled.
  split; [by apply settled_transient_iff|].
  intros Hcase.
  assert (~ transient f) as Hnt.
  { destruct Hcase as [H4|Hnt]; [|done].
    by apply settled_client_error_not_transient. }
  assert (axiosRetry transport cfg rc (initial s)
          = (Throw (ThrownFailure f),
             after_attempt transport cfg rc (initial s) 0)) as Hrun.
  { apply axiosRetry_rejects; [cbn; lia|intros i Hi; lia|exact Hout|].
    right. destruct (retryCondition_call rc (as_AxiosError f)) eqn:Hcall; [|done].
    exfalso. apply Hnt. by apply (retryCondition_call_default rc). }
  cbn zeta. rewrite Hrun. by cbn.
Qed.

Lemma non_transient_raises_at_once_witness :
  0 <= retries DEFAULT_RETRY_CONFIG
  /\ outcome_at (scripted [] (inr bad_request)) sample_config 0 0%nat
     = inr bad_request
  /\ settled_by_axios bad_request
  /\ status_in bad_request 400 499
  /\ fst (axiosRetry (scripted [] (inr bad_request)) sample_config
            DEFAULT_RETRY_CONFIG (initial 0%nat))
     = Throw (ThrownFailure bad_request)
  /\ attempts (trace (snd (axiosRetry (scripted [] (inr bad_request))
                             sample_config DEFAULT_RETRY_CONFIG (initial 0%nat))))
     = 1%nat
  /\ delays (trace (snd (axiosRetry (scripted [] (inr bad_request))
                           sample_config DEFAULT_RETRY_CONFIG (initial 0%nat))))
     = [].
Proof.
  assert (0 <= retries DEFAULT_RETRY_CONFIG) as H0 by (cbn; lia).
  assert (settled_by_axios bad_request) as Hs.
  { intros _. split; intros H; discriminate H. }
  assert (status_in bad_request 400 499) as H4.
  { eexists. split; [reflexivity|]. cbn. lia. }
  split; [exact H0|]. split; [reflexivity|]. split; [exact Hs|].
  split; [exact H4|].
  destruct (non_transient_raises_at_once (scripted [] (inr bad_request))
              sample_config DEFAULT_RETRY_CONFIG 0%nat bad_request
              H0 eq_refl eq_refl Hs) as (_ & Hrun).
  destruct (Hrun (or_introl H4)) as (Hthrow & Hattempts & Hdelays & _).
  split; [exact Hthrow|]. split; [exact Hattempts|exact Hdelays].
Defined.

(** A request that timed out is settled without a response and with the
    code of a timeout: it is transient, and the default client retries it
    to the end. *)
Lemma timed_out_is_retried :
  settled_by_axios timed_out
  /\ transient timed_out
  /\ attempts (trace (snd (axiosRetry (scripted [] (inr timed_out))
                             sample_config DEFAULT_RETRY_CONFIG (initial 0%nat))))
     = 4%nat.
Proof.
  split; [intros H; by destruct H|].
  split; [reflexivity|]. vm_compute; reflexivity.
Qed.

(** With a negative retry count the loop body never runs: no request is
    made and the unassigned [lastError] is raised. The statements about
    attempts therefore assume retries >= 0. *)
Lemma axiosRetry_negative_retries {W : Type}
    (transport : W -> AxiosRequestConfig -> (AxiosResponse + Failure) * W)
    (cfg : AxiosRequestConfig) (rc : RetryConfig) (w : World W) :
  retries rc < 0 ->
  axiosRetry transport cfg rc w = (Throw (ThrownValue JUndefined), w).
Proof.
  intros Hneg. unfold axiosRetry.
  replace (Z.to_nat (retries rc + 1)) with 0%nat by lia. reflexivity.
Qed.

(** ** Exhausting the retries *)

Lemma backoff_delays_lookup d n a i :
  (i < n)%nat -> backoff_delays d n a !! i = Some (d * 2 ^ (a + Z.of_nat i)).
Proof.
  revert a i. induction n as [|n IH]; intros a i Hi; [lia|].
  destruct i as [|i]; cbn [backoff_delays].
  - cbn. by rewrite Z.add_0_r.
  - rewrite lookup_cons_ne_0 by done. cbn [pred].
    rewrite IH by lia. do 3 f_equal. lia.
Qed.

Lemma backoff_delays_length d n a : length (backoff_delays d n a) = n.
Proof. revert a. induction n as [|n IH]; intros a; cbn; [done|by rewrite IH]. Qed.

Lemma backoff_delays_sum d n a :
  0 <= a ->
  foldr Z.add 0 (backoff_delays d n a) = d * 2 ^ a * (2 ^ Z.of_nat n - 1).
Proof.
  revert a. induction n as [|n IH]; intros a Ha.
  - cbn. lia.
  - cbn [backoff_delays foldr]. rewrite IH by lia.
    rewrite Nat2Z.inj_succ, Z.pow_succ_r by lia.
    rewrite (Z.pow_add_r 2 a 1) by lia. ring.
Qed.

(** C2: when every attempt of a request fails transiently, the client
    (default retry condition, retries >= 0) makes exactly 1 + retries
    transport attempts, awaits retryDelay * 2^i before the retry number i
    (from 0), each sleep between two requests and the sleeps adding up to
    retryDelay * (2^retries - 1), and then raises the failure of the last
    attempt. *)
Theorem persistent_failure_exhausts_retries {W : Type}
    (transport : W -> AxiosRequestConfig -> (AxiosResponse + Failure) * W)
    (cfg : AxiosRequestConfig) (rc : RetryConfig) (s : W) :
  0 <= retries rc ->
  retryCondition rc = Some DEFAULT_retryCondition ->
  (forall i, (i <= Z.to_nat (retries rc))%nat ->
     exists f, outcome_at transport cfg i s = inr f /\ transient f) ->
  exists last,
    outcome_at transport cfg (Z.to_nat (retries rc)) s = inr last
    /\ fst (axiosRetry transport cfg rc (initial s)) = Throw (ThrownFailure last)
    /\ Z.of_nat (attempts (trace (snd (axiosRetry transport cfg rc (initial s)))))
       = 1 + retries rc
    /\ Z.of_nat (length (delays (trace (snd (axiosRetry transport cfg rc (initial s))))))
       = retries rc
    /\ (forall i, 0 <= i < retries rc ->
          delays (trace (snd (axiosRetry transport cfg rc (initial s))))
            !! Z.to_nat i
          = Some (retryDelay rc * 2 ^ i))
    /\ foldr Z.add 0 (delays (trace (snd (axiosRetry transport cfg rc (initial s)))))
       = retryDelay rc * (2 ^ retries rc - 1)
    /\ trace (snd (axiosRetry transport cfg rc (initial s)))
       = backoff_rounds cfg (retryDelay rc) (Z.to_nat (retries rc)) 0
           ++ [EvRequest cfg].
Proof.
  intros Hretries Hrc Hall.
  destruct (Hall (Z.to_nat (retries rc)) ltac:(lia)) as (last & Hlast & _).
  exists last. split; [exact Hlast|].
  rewrite (axiosRetry_rejects transport cfg rc (initial s)
             (Z.to_nat (retries rc)) last).
  - cbn [fst snd]. rewrite attempts_after_attempt, delays_after_attempt.
    change (attempts (trace (initial s))) with 0%nat.
    change (delays (trace (initial s))) with (@nil Z).
    rewrite app_nil_l, backoff_delays_length.
    split; [done|]. split; [lia|]. split; [lia|]. split; [|split; [|done]].
    + intros i Hi. rewrite backoff_delays_lookup by lia.
      do 3 f_equal. lia.
    + rewrite backoff_delays_sum by lia. rewrite Z2Nat.id by lia. lia.
  - lia.
  - apply retried_before_default; [exact Hrc|].
    intros i Hi. apply Hall. cbn. lia.
  - exact Hlast.
  - left. lia.
Qed.

Lemma persistent_failure_exhausts_retries_witness :
  0 <= retries DEFAULT_RETRY_CONFIG
  /\ (forall i, (i <= 3)%nat ->
        exists f, outcome_at (scripted [] (inr unavailable)) sample_config i 0%nat
                  = inr f /\ transient f)
  /\ fst (axiosRetry (scripted [] (inr unavailable)) sample_config
            DEFAULT_RETRY_CONFIG (initial 0%nat))
     = Throw (ThrownFailure unavailable)
  /\ attempts (trace (snd (axiosRetry (scripted [] (inr unavailable))
                             sample_config DEFAULT_RETRY_CONFIG (initial 0%nat))))
     = 4%nat
  /\ delays (trace (snd (axiosRetry (scripted [] (inr unavailable))
                           sample_config DEFAULT_RETRY_CONFIG (initial 0%nat))))
     = [1000; 2000; 4000]
  /\ foldr Z.add 0 [1000; 2000; 4000] = 7000.
Proof.
  assert (0 <= retries DEFAULT_RETRY_CONFIG) as H0 by (cbn; lia).
  assert (forall i, (i <= 3)%nat ->
            exists f, outcome_at (scripted [] (inr unavailable)) sample_config i 0%nat
                      = inr f /\ transient f) as Hall.
  { intros i Hi.
    do 4 (destruct i as [|i]; [exists unavailable; split; reflexivity|]). lia. }
  split; [exact H0|]. split; [exact Hall|].
  destruct (persistent_failure_exhausts_retries
              (scripted [] (inr unavailable)) sample_config
              DEFAULT_RETRY_CONFIG 0%nat H0 eq_refl Hall)
    as (last & Hlast & Hthrow & _ & _ & _ & _ & Htrace).
  injection Hlast as <-.
  split; [exact Hthrow|]. rewrite Htrace.
  split; [reflexivity|]. split; reflexivity.
Defined.

(** ** Succeeding after retries *)

(** What every verb does with [axiosRetry]: [response.data] of the first
    answer. *)
Lemma body_of_first_success {W : Type}
    (transport : W -> AxiosRequestConfig -> (AxiosResponse + Failure) * W)
    (cfg : AxiosRequestConfig) (rc : RetryConfig)
    (s : W) (m : nat) (response : AxiosResponse) :
  Z.of_nat m <= retries rc ->
  retryCondition rc = Some DEFAULT_retryCondition ->
  (forall i, (i < m)%nat ->
     exists f, outcome_at transport cfg i s = inr f /\ transient f) ->
  outcome_at transport cfg m s = inl response ->
  forall run,
    run = (response' ← axiosRetry transport cfg rc; mret (resp_data response'))
            (initial s) ->
    fst run = Return (resp_data response)
    /\ attempts (trace (snd run)) = S m
    /\ delays (trace (snd run)) = backoff_delays (retryDelay rc) m 0
    /\ requests (trace (snd run)) = replicate (S m) cfg.
Proof.
  intros Hm Hrc Hall Hout run ->.
  unfold mbind, Prog_bind.
  rewrite (axiosRetry_resolves transport cfg rc (initial s) m response Hm);
    [| |exact Hout].
  - cbn [fst snd mret Prog_ret].
    rewrite attempts_after_attempt, delays_after_attempt.
    split; [done|]. split; [done|]. split; [done|].
    unfold after_attempt. cbn [trace initial app].
    rewrite requests_app, requests_backoff_rounds. cbn.
    by rewrite <- replicate_S_end.
  - by apply retried_before_default.
Qed.

(** C3: when the transport answers attempt number m + 1 after m transient
    failures, m <= retries, [get] invokes the transport exactly m + 1 times,
    having awaited the m backoff delays, and returns the body of that answer;
    with m = 0, the transport that does not fail is invoked exactly once. *)
Theorem get_returns_body_of_first_success {W : Type}
    (transport : W -> AxiosRequestConfig -> (AxiosResponse + Failure) * W)
    (this : ApiClient) (url' : string) (config : option AxiosRequestConfig)
    (s : W) (m : nat) (response : AxiosResponse) :
  let cfg := {| url := Some url'; method := Some GET;
                data := data (spread config);
                headers := headers (spread config);
                timeout := timeout (spread config) |} in
  Z.of_nat m <= retries (retryConfig this) ->
  retryCondition (retryConfig this) = Some DEFAULT_retryCondition ->
  (forall i, (i < m)%nat ->
     exists f, outcome_at transport cfg i s = inr f /\ transient f) ->
  outcome_at transport cfg m s = inl response ->
  fst (ApiClient_get transport this url' config (initial s))
  = Return (resp_data response)
  /\ attempts (trace (snd (ApiClient_get transport this url' config (initial s))))
     = S m
  /\ delays (trace (snd (ApiClient_get transport this url' config (initial s))))
     = backoff_delays (retryDelay (retryConfig this)) m 0
  /\ requests (trace (snd (ApiClient_get transport this url' config (initial s))))
     = replicate (S m) cfg.
Proof.
  intros cfg Hm Hrc Hall Hout.
  by apply (body_of_first_success transport cfg (retryConfig this) s m response).
Qed.

(** The same for the other verbs. *)
Lemma post_returns_body_of_first_success {W : Type}
    (transport : W -> AxiosRequestConfig -> (AxiosResponse + Failure) * W)
    (this : ApiClient) (url' : string) (data' : RequestData)
    (config : option AxiosRequestConfig)
    (s : W) (m : nat) (response : AxiosResponse) :
  let cfg := {| url := Some url'; method := Some POST;
                data := data';
                headers := headers (spread config);
                timeout := timeout (spread config) |} in
  Z.of_nat m <= retries (retryConfig this) ->
  retryCondition (retryConfig this) = Some DEFAULT_retryCondition ->
  (forall i, (i < m)%nat ->
     exists f, outcome_at transport cfg i s = inr f /\ transient f) ->
  outcome_at transport cfg m s = inl response ->
  fst (ApiClient_post transport this url' data' config (initial s))
  = Return (resp_data response)
  /\ attempts (trace (snd (ApiClient_post transport this url' data' config
                             (initial s))))
     = S m.
Proof.
  intros cfg Hm Hrc Hall Hout.
  destruct (body_of_first_success transport cfg (retryConfig this) s m response
              Hm Hrc Hall Hout _ eq_refl) as (H1 & H2 & _).
  by split.
Qed.

Lemma put_returns_body_of_first_success {W : Type}
    (transport : W -> AxiosRequestConfig -> (AxiosResponse + Failure) * W)
    (this : ApiClient) (url' : string) (data' : RequestData)
    (config : option AxiosRequestConfig)
    (s : W) (m : nat) (response : AxiosResponse) :
  let cfg := {| url := Some url'; method := Some PUT;
                data := data';
                headers := headers (spread config);
                timeout := timeout (spread config) |} in
  Z.of_nat m <= retries (retryConfig this) ->
  retryCondition (retryConfig this) = Some DEFAULT_retryCondition ->
  (forall i, (i < m)%nat ->
     exists f, outcome_at transport cfg i s = inr f /\ transient f) ->
  outcome_at transport cfg m s = inl response ->
  fst (ApiClient_put transport this url' data' config (initial s))
  = Return (resp_data response)
  /\ attempts (trace (snd (ApiClient_put transport this url' data' config
                             (initial s))))
     = S m.
Proof.
  intros cfg Hm Hrc Hall Hout.
  destruct (body_of_first_success transport cfg (retryConfig this) s m response
              Hm Hrc Hall Hout _ eq_refl) as (H1 & H2 & _).
  by split.
Qed.

Lemma delete_returns_body_of_first_success {W : Type}
    (transport : W -> AxiosRequestConfig -> (AxiosResponse + Failure) * W)
    (this : ApiClient) (url' : string) (config : option AxiosRequestConfig)
    (s : W) (m : nat) (response : AxiosResponse) :
  let cfg := {| url := Some url'; method := Some DELETE;
                data := data (spread config);
                headers := headers (spread config);
                timeout := timeout (spread config) |} in
  Z.of_nat m <= retries (retryConfig this) ->
  retryCondition (retryConfig this) = Some DEFAULT_retryCondition ->
  (forall i, (i < m)%nat ->
     exists f, outcome_at transport cfg i s = inr f /\ transient f) ->
  outcome_at transport cfg m s = inl response ->
  fst (ApiClient_delete transport this url' config (initial s))
  = Return (resp_data response)
  /\ attempts (trace (snd (ApiClient_delete transport this url' config
                             (initial s))))
     = S m.
Proof.
  intros cfg Hm Hrc Hall Hout.
  destruct (body_of_first_success transport cfg (retryConfig this) s m response
              Hm Hrc Hall Hout _ eq_refl) as (H1 & H2 & _).
  by split.
Qed.

Lemma upload_returns_body_of_first_success {W : Type}
    (transport : W -> AxiosRequestConfig -> (AxiosResponse + Failure) * W)
    (this : ApiClient) (url' : string) (formData : FormData)
    (config : option AxiosRequestConfig)
    (s : W) (m : nat) (response : AxiosResponse) :
  let cfg := {| url := Some url'; method := Some POST;
                data := DataForm formData;
                headers := Some (upload_headers config);
                timeout := timeout (spread config) |} in
  Z.of_nat m <= retries (retryConfig this) ->
  retryCondition (retryConfig this) = Some DEFAULT_retryCondition ->
  (forall i, (i < m)%nat ->
     exists f, outcome_at transport cfg i s = inr f /\ transient f) ->
  outcome_at transport cfg m s = inl response ->
  fst (ApiClient_upload transport this url' formData config (initial s))
  = Return (resp_data response)
  /\ attempts (trace (snd (ApiClient_upload transport this url' formData config
                             (initial s))))
     = S m.
Proof.
  intros cfg Hm Hrc Hall Hout.
  destruct (body_of_first_success transport cfg (retryConfig this) s m response
              Hm Hrc Hall Hout _ eq_refl) as (H1 & H2 & _).
  by split.
Qed.

Lemma get_returns_body_of_first_success_witness :
  (forall i, (i < 2)%nat ->
     exists f,
       outcome_at
         (scripted [inr network_error; inr network_error; inl ok_response]
            (inr network_error))
         {| url := Some "/api/summarize"; method := Some GET;
            data := DataValue JUndefined; headers := None; timeout := None |}
         i 0%nat
       = inr f /\ transient f)
  /\ fst (ApiClient_get
            (scripted [inr network_error; inr network_error; inl ok_response]
               (inr network_error))
            api "/api/summarize" None (initial 0%nat))
     = Return (resp_data ok_response)
  /\ attempts (trace (snd (ApiClient_get
            (scripted [inr network_error; inr network_error; inl ok_response]
               (inr network_error))
            api "/api/summarize" None (initial 0%nat))))
     = 3%nat
  /\ delays (trace (snd (ApiClient_get
            (scripted [inr network_error; inr network_error; inl ok_response]
               (inr network_error))
            api "/api/summarize" None (initial 0%nat))))
     = [1000; 2000].
Proof.
  assert (forall i, (i < 2)%nat ->
     exists f,
       outcome_at
         (scripted [inr network_error; inr network_error; inl ok_response]
            (inr network_error))
         {| url := Some "/api/summarize"; method := Some GET;
            data := DataValue JUndefined; headers := None; timeout := None |}
         i 0%nat
       = inr f /\ transient f) as Hall.
  { intros i Hi.
    do 2 (destruct i as [|i]; [exists network_error; split; reflexivity|]). lia. }
  split; [exact Hall|].
  destruct (get_returns_body_of_first_success
              (scripted [inr network_error; inr network_error; inl ok_response]
                 (inr network_error))
              api "/api/summarize" None 0%nat 2 ok_response
              ltac:(cbn; lia) eq_refl Hall eq_refl)
    as (Hret & Hattempts & Hdelays & _).
  split; [exact Hret|]. split; [exact Hattempts|exact Hdelays].
Defined.

(** ** Error normalisation *)

Lemma js_or_truthy a b : truthy b = true -> truthy (js_or a b) = true.
Proof. intros Hb. unfold js_or. by destruct (truthy a) eqn:Ha. Qed.

Lemma truthy_defined v : truthy v = true -> v <> JPrim JUndefined.
Proof. intros Hv ->. discriminate Hv. Qed.

(** The message is missing for one kind of failure only: an [AxiosError]
    built without a message that carries neither a response nor a
    request. *)
Lemma message_undefined_iff error :
  message (handleApiError error) = JPrim JUndefined
  <-> exists axiosError,
        error = ThrownFailure (AxiosErr axiosError)
        /\ err_message axiosError = None
        /\ err_response axiosError = None
        /\ err_request axiosError = false.
Proof.
  split.
  - destruct error as [[ae|msg]|p]; cbn; try discriminate.
    destruct (err_response ae) as [response|] eqn:Hresp; cbn.
    + intros Hundef. exfalso. revert Hundef. apply truthy_defined.
      by do 2 apply js_or_truthy.
    + destruct (err_request ae) eqn:Hreq; cbn; [discriminate|].
      unfold message_of. cbn.
      destruct (err_message ae) eqn:Hmsg; [discriminate|].
      intros _. by exists ae.
  - intros (ae & -> & Hmsg & Hresp & Hreq). cbn.
    rewrite Hresp, Hreq. unfold message_of. cbn. by rewrite Hmsg.
Qed.

Lemma message_defined error :
  (forall axiosError,
     error = ThrownFailure (AxiosErr axiosError) ->
     err_message axiosError <> None
     \/ err_response axiosError <> None
     \/ err_request axiosError = true) ->
  message (handleApiError error) <> JPrim JUndefined.
Proof.
  intros Hcase Hundef. apply message_undefined_iff in Hundef.
  destruct Hundef as (ae & Herr & Hmsg & Hresp & Hreq).
  destruct (Hcase ae Herr) as [H|[H|H]]; congruence.
Qed.

(** C4, as the code has it: for a failure that carries a response the
    message is the [message] field of the body when that field is truthy,
    otherwise the failure's own message when it has one that is not empty,
    and only otherwise "Server error occurred"; the status is the status of the
    response, the code is the code of the failure if any, and the details
    are the body of the response. *)
Theorem handleApiError_with_response (axiosError : AxiosError)
    (response : AxiosResponse) :
  err_response axiosError = Some response ->
  let body_message := opt_get (resp_data response) "message" in
  let result := handleApiError (ThrownFailure (AxiosErr axiosError)) in
  (truthy body_message = true -> message result = body_message)
  /\ (forall own, truthy body_message = false ->
        err_message axiosError = Some own -> own <> "" ->
        message result = JPrim (JStr own))
  /\ (truthy body_message = false ->
      err_message axiosError = None \/ err_message axiosError = Some "" ->
      message result = JPrim (JStr "Server error occurred"))
  /\ status result = Some (resp_status response)
  /\ code result = err_code axiosError
  /\ details result = Some (resp_data response).
Proof.
  intros Hresp body_message result. subst result body_message.
  cbn. rewrite Hresp. cbn. unfold js_or.
  repeat split.
  - by intros ->.
  - intros own -> Hown Hmsg. unfold message_of. cbn. rewrite Hown. cbn.
    destruct (String.eqb_spec own ""); [done|reflexivity].
  - intros -> [Hown|Hown]; unfold message_of; cbn; by rewrite Hown.
Qed.

Lemma handleApiError_with_response_witness :
  err_response (as_AxiosError bad_request)
  = Some {| resp_status := 400;
            resp_data := JObj {[ "message" := JPrim (JStr "Bad request") ]} |}
  /\ message (handleApiError (ThrownFailure bad_request))
     = JPrim (JStr "Bad request")
  /\ status (handleApiError (ThrownFailure bad_request)) = Some 400
  /\ code (handleApiError (ThrownFailure bad_request)) = Some "ERR_BAD_REQUEST".
Proof.
  split; [reflexivity|].
  destruct (handleApiError_with_response (as_AxiosError bad_request) _ eq_refl)
    as (Hmsg & _ & _ & Hstatus & Hcode & _).
  split; [exact (Hmsg eq_refl)|]. split; [exact Hstatus|exact Hcode].
Defined.

(** C4 as the specification words it does not hold: the body of this 503
    answer has no [message] field, and the normalised message is the
    failure's own message, not "Server error occurred". *)
Lemma message_falls_back_to_failure_message :
  opt_get (JObj ∅) "message" = JPrim JUndefined
  /\ err_response (as_AxiosError unavailable)
     = Some {| resp_status := 503; resp_data := JObj ∅ |}
  /\ message (handleApiError (ThrownFailure unavailable))
     = JPrim (JStr "Request failed with status code 503")
  /\ message (handleApiError (ThrownFailure unavailable))
     <> JPrim (JStr "Server error occurred").
Proof.
  split; [reflexivity|]. split; [reflexivity|]. split; [reflexivity|].
  vm_compute. discriminate.
Qed.

(** C5 at [new AxiosError()], an [AxiosError] without message, request
    and response: the normalised error has no message ([undefined]), where
    the same failure with a response attached, its body without a truthy
    message, gets "Server error occurred".
    It is the only kind of failure whose normalised message is missing; the
    rest of the invariant holds of every input: a status is present only
    when the failure carries a response, and is its status; a code is
    present only when the failure carries one, and is that code; and when
    a request was sent and no response received, the message is "Network
    error - please check your connection" and there is no status. *)
Theorem handleApiError_message_can_be_missing :
  handleApiError (ThrownFailure bare_AxiosError)
  = {| message := JPrim JUndefined;
       status := None; code := None; details := None |}
  /\ (forall response,
        truthy (opt_get (resp_data response) "message") = false ->
        message (handleApiError
                   (ThrownFailure
                      (AxiosErr
                         {| err_message := None; err_code := None;
                            err_response := Some response;
                            err_request := false |})))
        = JPrim (JStr "Server error occurred"))
  /\ (forall error,
        message (handleApiError error) = JPrim JUndefined ->
        exists axiosError,
          error = ThrownFailure (AxiosErr axiosError)
          /\ err_message axiosError = None
          /\ err_response axiosError = None
          /\ err_request axiosError = false)
  /\ (forall error st,
        status (handleApiError error) = Some st ->
        exists axiosError response,
          error = ThrownFailure (AxiosErr axiosError)
          /\ err_response axiosError = Some response
          /\ resp_status response = st)
  /\ (forall error c,
        code (handleApiError error) = Some c ->
        exists axiosError,
          error = ThrownFailure (AxiosErr axiosError)
          /\ err_code axiosError = Some c)
  /\ (forall axiosError,
        err_response axiosError = None ->
        err_request axiosError = true ->
        handleApiError (ThrownFailure (AxiosErr axiosError))
        = {| message :=
               JPrim (JStr "Network error - please check your connection");
             status := None;
             code := err_code axiosError;
             details := None |}).
Proof.
  split; [reflexivity|].
  split; [intros response Hbody; cbn; unfold js_or; by rewrite Hbody|].
  split; [intros error; apply message_undefined_iff|].
  split; [|split].
  - intros [[ae|msg]|p] st; cbn; try discriminate.
    destruct (err_response ae) as [response|] eqn:Hresp; cbn.
    + intros [= <-]. by exists ae, response.
    + destruct (err_request ae); cbn; discriminate.
  - intros [[ae|msg]|p] c; cbn; try discriminate.
    destruct (err_response ae) as [response|] eqn:Hresp; cbn.
    + intros Hc. by exists ae.
    + destruct (err_request ae); cbn; [|discriminate].
      intros Hc. by exists ae.
  - intros ae Hresp Hreq. cbn. by rewrite Hresp, Hreq.
Qed.

(** C8: normalisation is a function of the raw failure alone: the same
    raw failure always normalises to the same error. *)
Theorem handleApiError_deterministic (first second : Thrown) :
  first = second -> handleApiError first = handleApiError second.
Proof. intros ->. reflexivity. Qed.

Lemma handleApiError_deterministic_witness :
  ThrownFailure network_error = ThrownFailure network_error
  /\ handleApiError (ThrownFailure network_error)
     = {| message := JPrim (JStr "Network error - please check your connection");
          status := None; code := Some "ERR_NETWORK"; details := None |}.
Proof.
  split; [reflexivity|].
  exact (eq_trans
           (handleApiError_deterministic
              (ThrownFailure network_error) (ThrownFailure network_error)
              eq_refl)
           eq_refl).
Defined.

(** ** The health probe *)

Lemma checkApiHealth_unfold {W} (transport : W -> _ -> _ * W) (w : World W) :
  checkApiHealth transport w
  = (Return (match fst (ApiClient_get transport api "/health" None w) with
             | Return _ => true
             | Throw _ => false
             end),
     snd (ApiClient_get transport api "/health" None w)).
Proof.
  unfold checkApiHealth, try_catch, mbind, Prog_bind at 1.
  by destruct (ApiClient_get transport api "/health" None w) as [[body|e] w'].
Qed.

Lemma get_health_unfold {W} (transport : W -> _ -> _ * W) (w : World W) :
  ApiClient_get transport api "/health" None w
  = match axiosRetry transport health_request DEFAULT_RETRY_CONFIG w with
    | (Return response, w') => (Return (resp_data response), w')
    | (Throw e, w') => (Throw e, w')
    end.
Proof. reflexivity. Qed.

(** C6: the health probe never raises: it returns a boolean, which is
    true exactly when the GET of /health on the default client returns;
    in particular it is false when each attempt is answered with a 4xx
    response, false when no attempt receives a response, and false when the
    first attempt fails with a failure that is not transient. *)
Theorem checkApiHealth_is_a_boolean {W : Type}
    (transport : W -> AxiosRequestConfig -> (AxiosResponse + Failure) * W)
    (w : World W) :
  (exists healthy,
     checkApiHealth transport w
     = (Return healthy, snd (ApiClient_get transport api "/health" None w))
     /\ (healthy = true <->
         exists body,
           fst (ApiClient_get transport api "/health" None w) = Return body))
  /\ ((forall i, (i <= 3)%nat ->
         exists f, outcome_at transport health_request i (transport_state w)
                   = inr f /\ status_in f 400 499) ->
      fst (checkApiHealth transport w) = Return false)
  /\ ((forall i, (i <= 3)%nat ->
         exists f, outcome_at transport health_request i (transport_state w)
                   = inr f /\ no_response f) ->
      fst (checkApiHealth transport w) = Return false)
  /\ (forall f,
        outcome_at transport health_request 0 (transport_state w) = inr f ->
        ~ transient f ->
        fst (checkApiHealth transport w) = Return false).
Proof.
  assert (forall P : Failure -> Prop,
            (forall i, (i <= 3)%nat ->
               exists f, outcome_at transport health_request i (transport_state w)
                         = inr f /\ P f) ->
            fst (checkApiHealth transport w) = Return false) as Hrejected.
  { intros P Hall.
    destruct (axiosRetry_all_rejected transport health_request
                DEFAULT_RETRY_CONFIG w) as (e & He).
    { intros i Hi. destruct (Hall i Hi) as (f & Hf & _). by exists f. }
    rewrite checkApiHealth_unfold, get_health_unfold. cbn [fst].
    destruct (axiosRetry transport health_request DEFAULT_RETRY_CONFIG w)
      as [[response|e'] w']; [discriminate He|reflexivity]. }
  split; [|split; [apply Hrejected|split; [apply Hrejected|]]].
  2: { intros f Hout Hnt.
       rewrite checkApiHealth_unfold, get_health_unfold.
       rewrite (axiosRetry_rejects transport health_request DEFAULT_RETRY_CONFIG
                  w 0 f); [done|cbn; lia|intros i Hi; lia|exact Hout|].
       right. destruct (DEFAULT_retryCondition (as_AxiosError f)) eqn:Hcall;
         [by destruct Hnt|done]. }
  rewrite checkApiHealth_unfold.
  destruct (fst (ApiClient_get transport api "/health" None w)) as [body|e].
  - exists true. split; [done|]. split; [by exists body|done].
  - exists false. split; [done|]. split; [done|]. by intros (body & Hbody).
Qed.

Lemma checkApiHealth_is_a_boolean_witness :
  (forall i, (i <= 3)%nat ->
     exists f, outcome_at (scripted [] (inr bad_request)) health_request i 0%nat
               = inr f /\ status_in f 400 499)
  /\ fst (checkApiHealth (scripted [] (inr bad_request)) (initial 0%nat))
     = Return false.
Proof.
  assert (forall i, (i <= 3)%nat ->
     exists f, outcome_at (scripted [] (inr bad_request)) health_request i 0%nat
               = inr f /\ status_in f 400 499) as Hall.
  { intros i Hi.
    do 4 (destruct i as [|i];
          [exists bad_request; split;
           [reflexivity|eexists; split; [reflexivity|cbn; lia]]|]).
    lia. }
  split; [exact Hall|].
  exact (proj1 (proj2 (checkApiHealth_is_a_boolean
                         (scripted [] (inr bad_request)) (initial 0%nat)))
           Hall).
Defined.

(** C9: the health probe runs on the default retrying client: when every
    attempt fails transiently it invokes the transport four times, awaits
    1000, 2000 and 4000 ms between the attempts, and only then returns
    false. *)
Theorem checkApiHealth_pays_full_backoff {W : Type}
    (transport : W -> AxiosRequestConfig -> (AxiosResponse + Failure) * W)
    (s : W) :
  (forall i, (i <= 3)%nat ->
     exists f, outcome_at transport health_request i s = inr f /\ transient f) ->
  fst (checkApiHealth transport (initial s)) = Return false
  /\ trace (snd (checkApiHealth transport (initial s)))
     = [EvRequest health_request; EvSleep 1000;
        EvRequest health_request; EvSleep 2000;
        EvRequest health_request; EvSleep 4000;
        EvRequest health_request]
  /\ attempts (trace (snd (checkApiHealth transport (initial s)))) = 4%nat
  /\ delays (trace (snd (checkApiHealth transport (initial s))))
     = [1000; 2000; 4000]
  /\ transport_state (snd (checkApiHealth transport (initial s)))
     = state_after transport health_request 4 s.
Proof.
  intros Hall.
  destruct (Hall 3%nat ltac:(lia)) as (last & Hlast & _).
  rewrite checkApiHealth_unfold, get_health_unfold.
  rewrite (axiosRetry_rejects transport health_request DEFAULT_RETRY_CONFIG
             (initial s) 3 last).
  - cbn [fst snd]. repeat split.
  - cbn. lia.
  - apply retried_before_default; [reflexivity|].
    intros i Hi. apply Hall. lia.
  - exact Hlast.
  - left. reflexivity.
Qed.

Lemma checkApiHealth_pays_full_backoff_witness :
  (forall i, (i <= 3)%nat ->
     exists f, outcome_at (scripted [] (inr network_error)) health_request i 0%nat
               = inr f /\ transient f)
  /\ fst (checkApiHealth (scripted [] (inr network_error)) (initial 0%nat))
     = Return false
  /\ attempts (trace (snd (checkApiHealth (scripted [] (inr network_error))
                             (initial 0%nat))))
     = 4%nat
  /\ delays (trace (snd (checkApiHealth (scripted [] (inr network_error))
                           (initial 0%nat))))
     = [1000; 2000; 4000].
Proof.
  assert (forall i, (i <= 3)%nat ->
     exists f, outcome_at (scripted [] (inr network_error)) health_request i 0%nat
               = inr f /\ transient f) as Hall.
  { intros i Hi.
    do 4 (destruct i as [|i]; [exists network_error; split; reflexivity|]). lia. }
  split; [exact Hall|].
  destruct (checkApiHealth_pays_full_backoff
              (scripted [] (inr network_error)) 0%nat Hall)
    as (Hfalse & _ & Hattempts & Hdelays & _).
  split; [exact Hfalse|]. split; [exact Hattempts|exact Hdelays].
Defined.

(** ** Upload *)

(** C7, as the code has it: every request an upload dispatches carries the
    headers of the caller with the header named exactly Content-Type set to
    multipart/form-data: that header reads multipart/form-data whatever the
    caller supplied under that name, every header of the caller under
    another name (a content-type in another letter case among them) is
    retained unchanged, and nothing else is added; at least one request is
    dispatched when retries >= 0. In retrying and in failing an upload is
    the POST of the form data with those headers. *)
Theorem upload_owns_content_type {W : Type}
    (transport : W -> AxiosRequestConfig -> (AxiosResponse + Failure) * W)
    (this : ApiClient) (url' : string) (formData : FormData)
    (config : option AxiosRequestConfig) (w : World W) :
  upload_headers config !! "Content-Type" = Some "multipart/form-data"
  /\ (forall name, name <> "Content-Type" ->
        upload_headers config !! name
        = default ∅ (headers (spread config)) !! name)
  /\ (exists added,
        trace (snd (ApiClient_upload transport this url' formData config w))
        = trace w ++ added
        /\ (forall dispatched, dispatched ∈ requests added ->
              headers dispatched = Some (upload_headers config)
              /\ data dispatched = DataForm formData
              /\ method dispatched = Some POST
              /\ url dispatched = Some url')
        /\ (0 <= retries (retryConfig this) -> requests added <> []))
  /\ ApiClient_upload transport this url' formData config
     = ApiClient_post transport this url' (DataForm formData)
         (Some {| url := url (spread config);
                  method := method (spread config);
                  data := data (spread config);
                  headers := Some (upload_headers config);
                  timeout := timeout (spread config) |}).
Proof.
  split; [apply lookup_insert_eq|].
  split; [intros name Hne; unfold upload_headers; by rewrite lookup_insert_ne|].
  split; [|reflexivity].
  unfold ApiClient_upload, mbind, Prog_bind.
  set (cfg := {| url := Some url'; method := Some POST;
                 data := DataForm formData;
                 headers := Some (upload_headers config);
                 timeout := timeout (spread config) |}).
  destruct (axiosRetry_from_trace transport cfg (retryConfig this)
              (Z.to_nat (retries (retryConfig this) + 1)) 0
              (ThrownValue JUndefined) w) as (added & Htrace & Hreq & Hpos).
  fold (axiosRetry transport cfg (retryConfig this)) in Htrace.
  exists added. split; [|split].
  - destruct (axiosRetry transport cfg (retryConfig this) w) as [[response|e] w'];
      exact Htrace.
  - intros dispatched Hin. rewrite Hreq in Hin.
    apply elem_of_replicate in Hin as [-> _]. done.
  - intros Hretries Hnil.
    assert (0 < attempts added)%nat as H by (apply Hpos; lia).
    unfold attempts in H. rewrite Hnil in H. cbn in H. lia.
Qed.

(** C7 as the specification words it does not hold: the content type this
    caller supplies, named in lower case, is not overridden; the request
    dispatched carries it next to the multipart marker. *)
Lemma upload_keeps_lowercase_content_type :
  requests
    (trace (snd (ApiClient_upload (scripted [] (inl ok_response)) api "/api/qa"
                   [("question", FormString "What is it?")]
                   (Some lowercase_content_type) (initial 0%nat))))
  = [ {| url := Some "/api/qa"; method := Some POST;
         data := DataForm [("question", FormString "What is it?")];
         headers := Some (upload_headers (Some lowercase_content_type));
         timeout := None |} ]
  /\ upload_headers (Some lowercase_content_type) !! "content-type"
     = Some "text/plain"
  /\ upload_headers (Some lowercase_content_type) !! "content-type"
     <> Some "multipart/form-data"
  /\ upload_headers (Some lowercase_content_type) !! "Content-Type"
     = Some "multipart/form-data".
Proof.
  split; [reflexivity|]. split; [reflexivity|].
  split; [vm_compute; discriminate|reflexivity].
Qed.

(** The scenario of the test suite: a custom header is retained next to the
    multipart marker. *)
Lemma upload_keeps_custom_header :
  upload_headers
    (Some {| url := None; method := None; data := DataValue JUndefined;
             headers := Some {[ "X-Custom" := "value" ]}; timeout := None |})
  = {[ "X-Custom" := "value"; "Content-Type" := "multipart/form-data" ]}.
Proof.
  unfold upload_headers, spread. cbn [default headers].
  rewrite <- !insert_empty. by apply insert_insert_ne.
Qed.

(** ** Numbers as texts *)

Lemma pretty_N_go_length (k : nat) (x : N) (s : string) :
  (x < 10 ^ N.of_nat k)%N ->
  (String.length (pretty_N_go x s) <= String.length s + k)%nat.
Proof.
  revert x s. induction k as [|k IH]; intros x s Hx.
  - replace x with 0%N by (cbn in Hx; lia). rewrite pretty_N_go_0. lia.
  - destruct (decide (x = 0%N)) as [->|Hpos].
    + rewrite pretty_N_go_0. lia.
    + rewrite pretty_N_go_step by lia.
      etrans; [apply IH|cbn; lia].
      apply N.Div0.div_lt_upper_bound.
      rewrite Nat2N.inj_succ, N.pow_succ_r' in Hx. lia.
Qed.

Lemma pretty_Z_length (k : nat) (n : Z) :
  0 < n < 10 ^ Z.of_nat k -> (String.length (pretty n) <= k)%nat.
Proof.
  intros Hn. destruct n as [|x|x]; [lia| |lia].
  unfold pretty, pretty_Z, pretty, pretty_N.
  destruct (decide (N.pos x = 0%N)) as [|_]; [done|].
  apply (pretty_N_go_length k (N.pos x) "").
  apply N2Z.inj_lt. rewrite N2Z.inj_pow, nat_N_Z. cbn. lia.
Qed.

Lemma shortest_decimal_exact (m : Z) (j : nat) :
  0 < m -> shortest_decimal m 0 j = m.
Proof.
  intros Hm. induction j as [|j IH]; cbn [shortest_decimal]; [cbn; lia|].
  set (p := 10 ^ Z.of_nat (S j)).
  assert (0 < p) as Hp by (apply Z.pow_pos_nonneg; lia).
  replace (m * 2 ^ 0) with m by (cbn; lia).
  pose proof (Z.mul_div_le m p Hp) as Hle.
  pose proof (Z.mul_succ_div_gt m p Hp) as Hgt.
  set (c1 := m / p * p) in *.
  replace (p * (m / p)) with c1 in Hle by (unfold c1; lia).
  replace (p * Z.succ (m / p)) with (c1 + p) in Hgt by (unfold c1; lia).
  assert (reads_back m 0 (c1 + p) = false) as ->.
  { unfold reads_back. replace (m * 2 ^ 0) with m by (cbn; lia).
    destruct (Z.even m); apply andb_false_iff; right; cbn; lia. }
  destruct (reads_back m 0 c1 && (0 <? c1)) eqn:Hback; [|exact IH].
  apply andb_true_iff in Hback as [Hback _].
  unfold reads_back in Hback. replace (m * 2 ^ 0) with m in Hback by (cbn; lia).
  rewrite andb_false_r in Hback. cbn [Z.pow] in Hback.
  destruct (Z.even m); apply andb_true_iff in Hback as [H1 H2]; cbn in H1; lia.
Qed.

(** An integer that is a Number value and within 21 digits is written with
    its own digits: for every safe integer the text is the decimal
    numeral. *)
Lemma Number_toString_safe (n : Z) :
  - 2 ^ 53 < n < 2 ^ 53 -> Number_toString n = pretty n.
Proof.
  assert (forall x, 0 < x < 2 ^ 53 -> positive_toString x = pretty x) as Hpos.
  { intros x Hx. unfold positive_toString, nearest_Number.
    assert ((Z.log2 x + 1 <=? 53) = true) as ->.
    { apply Z.leb_le. assert (Z.log2 x < 53); [|lia].
      apply Z.log2_lt_pow2; lia. }
    rewrite shortest_decimal_exact by lia.
    assert ((Z.of_nat (String.length (pretty x)) <=? 21) = true) as ->; [|done].
    apply Z.leb_le. pose proof (pretty_Z_length 16 x) as Hlen.
    assert (2 ^ 53 < 10 ^ Z.of_nat 16) by (vm_compute; reflexivity). lia. }
  intros Hn. unfold Number_toString.
  destruct (Z.eqb_spec n 0) as [->|Hne]; [done|].
  destruct (Z.ltb_spec n 0) as [Hneg|Hnonneg]; [|apply Hpos; lia].
  rewrite Hpos by lia. destruct n as [|x|x]; [done|lia|done].
Qed.

(** ** The service wrappers *)



(** Numbers in a message are written as JavaScript writes them. *)
Lemma Error_message_of_numbers :
  Error_message (JPrim (JNum 404)) = "404"
  /\ Error_message (JPrim (JNum (- 1))) = "-1"
  /\ Error_message (JPrim (JNum (10 ^ 21 - 1))) = "1e+21"
  /\ Error_message (JPrim (JNum (10 ^ 21))) = "1e+21"
  /\ Error_message (JPrim (JNum (- 10 ^ 21))) = "-1e+21"
  /\ Error_message (JPrim (JNum (10 ^ 20))) = "100000000000000000000"
  /\ Error_message (JPrim (JNum (2 ^ 53 + 1))) = "9007199254740992"
  /\ Error_message (JPrim (JNum (2 ^ 60))) = "1152921504606847000"
  /\ Error_message (JPrim (JNum (2 ^ 70))) = "1.1805916207174113e+21"
  /\ Error_message (JPrim (JNum (2 ^ 1024))) = "Infinity"
  /\ Error_message (JArr [JPrim (JNum (10 ^ 23)); JPrim JNull; JPrim (JStr "x")])
     = "1e+23,,x".
Proof. repeat split; vm_compute; reflexivity. Qed.

Lemma try_catch_rewraps {W A : Type} (wrapped : Prog W A) :
  rewraps
    (try wrapped
     catch error =>
       let apiError := handleApiError error in
       throw (new_Error (message apiError)))
    wrapped.
Proof.
  intros w. unfold try_catch.
  by destruct (wrapped w) as [[a|e] w'].
Qed.



(** The scenario of the specification: /api/qa always answers 400 with body
    [{ message: "Bad request" }]; the wrapper raises [Error("Bad request")]
    after exactly one request. *)
Lemma answerQuestion_bad_request :
  answerQuestion (scripted [] (inr bad_request))
    (JObj {[ "question" := JPrim (JStr "What is it?") ]}) (initial 0%nat)
  = (Throw (ThrownFailure (ErrorObj "Bad request")),
     {| transport_state := 1%nat; trace := [EvRequest sample_config] |}).
Proof. reflexivity. Qed.

(** * Further properties of the client *)

(** ** The shape of every run of [axiosRetry] *)

Section Shape.
Context {W : Type}.
Variable transport : W -> AxiosRequestConfig -> (AxiosResponse + Failure) * W.
Variable cfg : AxiosRequestConfig.
Variable rc : RetryConfig.

(** From inside the loop: the run ends at the first attempt that is
    answered, or whose failure is not to be retried, or that is the last. *)
Lemma axiosRetry_from_shape left : forall attempt le w,
  (0 < left)%nat ->
  attempt + Z.of_nat left = retries rc + 1 ->
  exists k,
    (k < left)%nat
    /\ retried_before transport cfg rc w k
    /\ axiosRetry_from transport cfg rc left attempt le w
       = (completion_of (outcome_at transport cfg k (transport_state w)),
          {| transport_state := state_after transport cfg (S k) (transport_state w);
             trace := trace w ++ backoff_rounds cfg (retryDelay rc) k attempt
                        ++ [EvRequest cfg] |})
    /\ (S k = left
        \/ (exists response,
              outcome_at transport cfg k (transport_state w) = inl response)
        \/ (exists f,
              outcome_at transport cfg k (transport_state w) = inr f
              /\ retryCondition_call rc (as_AxiosError f) = false)).
Proof.
  induction left as [|left IH]; intros attempt le w Hpos Hinv; [lia|].
  destruct (transport (transport_state w) cfg) as [[response|f] s] eqn:Hans.
  - exists 0%nat. split; [lia|]. split; [intros i Hi; lia|].
    rewrite (axiosRetry_from_resolves _ _ _ _ _ _ _ response) by (by rewrite Hans).
    unfold outcome_at, requested. cbn [state_after backoff_rounds app].
    rewrite Hans. cbn. split; [done|]. right; left. by exists response.
  - destruct (decide (attempt = retries rc)) as [Hlast|Hnotlast].
    { exists 0%nat. split; [lia|]. split; [intros i Hi; lia|].
      rewrite (axiosRetry_from_gives_up _ _ _ _ _ _ _ f)
        by (by rewrite ?Hans; auto).
      unfold outcome_at, requested. cbn [state_after backoff_rounds app].
      rewrite Hans. cbn. split; [done|]. left. lia. }
    destruct (retryCondition_call rc (as_AxiosError f)) eqn:Hcall.
    + rewrite (axiosRetry_from_retries _ _ _ _ _ _ _ f)
        by (by rewrite ?Hans; auto).
      destruct (IH (attempt + 1) (ThrownFailure f)
                  (requested transport cfg w
                     [EvSleep (retryDelay rc * 2 ^ attempt)]))
        as (k & Hk & Hbefore & Hrun & Hstop); [lia|lia|].
      exists (S k). split; [lia|]. split; [|split].
      * intros i Hi. destruct i as [|i].
        -- exists f. unfold outcome_at. cbn. by rewrite Hans.
        -- apply (Hbefore i). lia.
      * rewrite Hrun. unfold requested. cbn [transport_state trace].
        rewrite <- !app_assoc. reflexivity.
      * destruct Hstop as [Hend|Hstop]; [left; lia|right; exact Hstop].
    + exists 0%nat. split; [lia|]. split; [intros i Hi; lia|].
      rewrite (axiosRetry_from_gives_up _ _ _ _ _ _ _ f)
        by (by rewrite ?Hans; auto).
      unfold outcome_at, requested. cbn [state_after backoff_rounds app].
      rewrite Hans. cbn. split; [done|]. right; right. by exists f.
Qed.

Lemma axiosRetry_shape w :
  0 <= retries rc ->
  exists k,
    Z.of_nat k <= retries rc
    /\ retried_before transport cfg rc w k
    /\ axiosRetry transport cfg rc w
       = (completion_of (outcome_at transport cfg k (transport_state w)),
          after_attempt transport cfg rc w k)
    /\ (Z.of_nat k = retries rc
        \/ (exists response,
              outcome_at transport cfg k (transport_state w) = inl response)
        \/ (exists f,
              outcome_at transport cfg k (transport_state w) = inr f
              /\ retryCondition_call rc (as_AxiosError f) = false)).
Proof.
  intros Hretries. unfold axiosRetry.
  destruct (axiosRetry_from_shape (Z.to_nat (retries rc + 1)) 0
              (ThrownValue JUndefined) w) as (k & Hk & Hbefore & Hrun & Hstop);
    [lia|lia|].
  exists k. split; [lia|]. split; [exact Hbefore|]. split; [exact Hrun|].
  destruct Hstop as [Hend|Hstop]; [left; lia|right; exact Hstop].
Qed.
End Shape.

(** X1: whatever the transport answers and whatever the retry condition,
    a run with retries >= 0 makes at least one and at most 1 + retries
    requests, all with the configuration it was given; between two
    consecutive requests it sleeps once, retryDelay * 2^i before the retry
    number i, and it never sleeps after its last request. *)
Theorem axiosRetry_schedule {W : Type}
    (transport : W -> AxiosRequestConfig -> (AxiosResponse + Failure) * W)
    (cfg : AxiosRequestConfig) (rc : RetryConfig) (w : World W) :
  0 <= retries rc ->
  exists k,
    Z.of_nat k <= retries rc
    /\ trace (snd (axiosRetry transport cfg rc w))
       = trace w ++ backoff_rounds cfg (retryDelay rc) k 0 ++ [EvRequest cfg]
    /\ attempts (trace (snd (axiosRetry transport cfg rc w)))
       = (attempts (trace w) + S k)%nat
    /\ delays (trace (snd (axiosRetry transport cfg rc w)))
       = delays (trace w) ++ backoff_delays (retryDelay rc) k 0
    /\ transport_state (snd (axiosRetry transport cfg rc w))
       = state_after transport cfg (S k) (transport_state w).
Proof.
  intros Hretries.
  destruct (axiosRetry_shape transport cfg rc w Hretries)
    as (k & Hk & _ & Hrun & _).
  exists k. rewrite Hrun. cbn [snd].
  rewrite attempts_after_attempt, delays_after_attempt. done.
Qed.

Lemma axiosRetry_schedule_witness :
  0 <= retries DEFAULT_RETRY_CONFIG
  /\ exists k,
       Z.of_nat k <= 3
       /\ attempts (trace (snd (axiosRetry
            (scripted [inr unavailable; inl ok_response] (inr bad_request))
            sample_config DEFAULT_RETRY_CONFIG (initial 0%nat))))
          = S k.
Proof.
  assert (0 <= retries DEFAULT_RETRY_CONFIG) as H0 by (cbn; lia).
  split; [exact H0|].
  destruct (axiosRetry_schedule
              (scripted [inr unavailable; inl ok_response] (inr bad_request))
              sample_config DEFAULT_RETRY_CONFIG (initial 0%nat) H0)
    as (k & Hk & _ & Hattempts & _).
  exists k. split; [exact Hk|exact Hattempts].
Defined.

(** X2: a run with retries >= 0 ends with what the transport answered to
    its last request, the response returned or the failure raised, and every
    request before the last was rejected with a failure the retry condition
    accepts: the first response is returned, and no failure is raised other
    than the last one. *)
Theorem axiosRetry_ends_with_last_answer {W : Type}
    (transport : W -> AxiosRequestConfig -> (AxiosResponse + Failure) * W)
    (cfg : AxiosRequestConfig) (rc : RetryConfig) (s : W) :
  0 <= retries rc ->
  exists k,
    attempts (trace (snd (axiosRetry transport cfg rc (initial s)))) = S k
    /\ fst (axiosRetry transport cfg rc (initial s))
       = completion_of (outcome_at transport cfg k s)
    /\ (forall i, (i < k)%nat ->
          exists f, outcome_at transport cfg i s = inr f
                    /\ retryCondition_call rc (as_AxiosError f) = true)
    /\ (Z.of_nat k = retries rc
        \/ (exists response, outcome_at transport cfg k s = inl response)
        \/ (exists f, outcome_at transport cfg k s = inr f
                      /\ retryCondition_call rc (as_AxiosError f) = false)).
Proof.
  intros Hretries.
  destruct (axiosRetry_shape transport cfg rc (initial s) Hretries)
    as (k & Hk & Hbefore & Hrun & Hstop).
  exists k. rewrite Hrun. cbn [fst snd].
  rewrite attempts_after_attempt. done.
Qed.

Lemma axiosRetry_ends_with_last_answer_witness :
  0 <= retries DEFAULT_RETRY_CONFIG
  /\ exists k,
       attempts (trace (snd (axiosRetry
            (scripted [inr unavailable; inl ok_response] (inr bad_request))
            sample_config DEFAULT_RETRY_CONFIG (initial 0%nat))))
       = S k
       /\ fst (axiosRetry
            (scripted [inr unavailable; inl ok_response] (inr bad_request))
            sample_config DEFAULT_RETRY_CONFIG (initial 0%nat))
          = completion_of
              (outcome_at
                 (scripted [inr unavailable; inl ok_response] (inr bad_request))
                 sample_config k 0%nat).
Proof.
  assert (0 <= retries DEFAULT_RETRY_CONFIG) as H0 by (cbn; lia).
  split; [exact H0|].
  destruct (axiosRetry_ends_with_last_answer
              (scripted [inr unavailable; inl ok_response] (inr bad_request))
              sample_config DEFAULT_RETRY_CONFIG 0%nat H0)
    as (k & Hattempts & Hend & _).
  exists k. split; [exact Hattempts|exact Hend].
Defined.

(** X3: the time a run spends sleeping is bounded: with retries >= 0 and
    retryDelay >= 0 the delays of a run add up to at most
    retryDelay * (2^retries - 1), whatever the transport answers. *)
Theorem axiosRetry_total_delay_bounded {W : Type}
    (transport : W -> AxiosRequestConfig -> (AxiosResponse + Failure) * W)
    (cfg : AxiosRequestConfig) (rc : RetryConfig) (s : W) :
  0 <= retries rc ->
  0 <= retryDelay rc ->
  0 <= foldr Z.add 0 (delays (trace (snd (axiosRetry transport cfg rc (initial s)))))
    <= retryDelay rc * (2 ^ retries rc - 1).
Proof.
  intros Hretries Hdelay.
  destruct (axiosRetry_shape transport cfg rc (initial s) Hretries)
    as (k & Hk & _ & Hrun & _).
  rewrite Hrun. cbn [snd]. rewrite delays_after_attempt.
  change (delays (trace (initial s))) with (@nil Z). rewrite app_nil_l.
  rewrite backoff_delays_sum by lia. rewrite Z.pow_0_r, Z.mul_1_r.
  assert (0 < 2 ^ Z.of_nat k) by (apply Z.pow_pos_nonneg; lia).
  assert (2 ^ Z.of_nat k <= 2 ^ retries rc) by (apply Z.pow_le_mono_r; lia).
  split; [nia|]. apply Z.mul_le_mono_nonneg_l; lia.
Qed.

Lemma axiosRetry_total_delay_bounded_witness :
  0 <= retries DEFAULT_RETRY_CONFIG
  /\ 0 <= retryDelay DEFAULT_RETRY_CONFIG
  /\ foldr Z.add 0 (delays (trace (snd (axiosRetry
        (scripted [inr unavailable; inl ok_response] (inr bad_request))
        sample_config DEFAULT_RETRY_CONFIG (initial 0%nat)))))
     <= 7000.
Proof.
  assert (0 <= retries DEFAULT_RETRY_CONFIG) as H0 by (cbn; lia).
  assert (0 <= retryDelay DEFAULT_RETRY_CONFIG) as H1 by (cbn; lia).
  split; [exact H0|]. split; [exact H1|].
  exact (proj2 (axiosRetry_total_delay_bounded
                  (scripted [inr unavailable; inl ok_response] (inr bad_request))
                  sample_config DEFAULT_RETRY_CONFIG 0%nat H0 H1)).
Defined.

(** ** Runs of a single attempt *)

Lemma axiosRetry_single {W : Type}
    (transport : W -> AxiosRequestConfig -> (AxiosResponse + Failure) * W)
    (cfg : AxiosRequestConfig) (rc : RetryConfig) (w : World W) :
  retries rc = 0 \/ (0 <= retries rc /\ retryCondition rc = None) ->
  axiosRetry transport cfg rc w
  = (completion_of (fst (transport (transport_state w) cfg)),
     requested transport cfg w []).
Proof.
  intros Hsingle.
  destruct (axiosRetry_shape transport cfg rc w) as (k & Hk & Hbefore & Hrun & _);
    [destruct Hsingle as [->|[H _]]; lia|].
  assert (k = 0%nat) as ->.
  { destruct Hsingle as [H0|[_ Hnone]]; [lia|].
    destruct k as [|k]; [done|].
    destruct (Hbefore 0%nat ltac:(lia)) as (f & _ & Hcall).
    unfold retryCondition_call in Hcall. rewrite Hnone in Hcall. discriminate. }
  rewrite Hrun. reflexivity.
Qed.

(** X4: a retry configuration without a retry condition never retries:
    with retries >= 0 the run is one request, what the transport answers to
    it is the result, and nothing is awaited. *)
Theorem axiosRetry_without_condition_never_retries {W : Type}
    (transport : W -> AxiosRequestConfig -> (AxiosResponse + Failure) * W)
    (cfg : AxiosRequestConfig) (rc : RetryConfig) (s : W) :
  0 <= retries rc ->
  retryCondition rc = None ->
  fst (axiosRetry transport cfg rc (initial s))
  = completion_of (fst (transport s cfg))
  /\ trace (snd (axiosRetry transport cfg rc (initial s))) = [EvRequest cfg]
  /\ transport_state (snd (axiosRetry transport cfg rc (initial s)))
     = snd (transport s cfg).
Proof.
  intros Hretries Hnone. rewrite axiosRetry_single by auto. done.
Qed.

Lemma axiosRetry_without_condition_never_retries_witness :
  0 <= 3
  /\ fst (axiosRetry (scripted [] (inr unavailable)) sample_config
            {| retries := 3; retryDelay := 1000; retryCondition := None |}
            (initial 0%nat))
     = Throw (ThrownFailure unavailable)
  /\ trace (snd (axiosRetry (scripted [] (inr unavailable)) sample_config
                   {| retries := 3; retryDelay := 1000; retryCondition := None |}
                   (initial 0%nat)))
     = [EvRequest sample_config].
Proof.
  split; [lia|].
  destruct (axiosRetry_without_condition_never_retries
              (scripted [] (inr unavailable)) sample_config
              {| retries := 3; retryDelay := 1000; retryCondition := None |}
              0%nat ltac:(cbn; lia) eq_refl) as (Hfst & Htrace & _).
  split; [exact Hfst|exact Htrace].
Defined.

(** X5: a client constructed with retries: 0 makes one request per call,
    whatever the other overrides and whatever the transport answers: [get]
    returns the body of the response or raises the failure of that one
    request, and awaits nothing. *)
Theorem client_without_retries_asks_once {W : Type}
    (transport : W -> AxiosRequestConfig -> (AxiosResponse + Failure) * W)
    (overrides : PartialRetryConfig) (url' : string)
    (config : option AxiosRequestConfig) (s : W) :
  p_retries overrides = Some 0 ->
  let cfg := {| url := Some url'; method := Some GET;
                data := data (spread config);
                headers := headers (spread config);
                timeout := timeout (spread config) |} in
  fst (ApiClient_get transport (ApiClient_new overrides) url' config (initial s))
  = match fst (transport s cfg) with
    | inl response => Return (resp_data response)
    | inr f => Throw (ThrownFailure f)
    end
  /\ trace (snd (ApiClient_get transport (ApiClient_new overrides) url' config
                   (initial s)))
     = [EvRequest cfg].
Proof.
  intros Hzero cfg.
  unfold ApiClient_get, mbind, Prog_bind. fold cfg.
  rewrite axiosRetry_single by (left; cbn; by rewrite Hzero).
  cbn [transport_state initial].
  by destruct (fst (transport s cfg)) as [response|f].
Qed.

Lemma client_without_retries_asks_once_witness :
  p_retries {| p_retries := Some 0; p_retryDelay := None;
               p_retryCondition := None |} = Some 0
  /\ fst (ApiClient_get (scripted [] (inr unavailable))
            (ApiClient_new {| p_retries := Some 0; p_retryDelay := None;
                              p_retryCondition := None |})
            "/health" None (initial 0%nat))
     = Throw (ThrownFailure unavailable)
  /\ trace (snd (ApiClient_get (scripted [] (inr unavailable))
            (ApiClient_new {| p_retries := Some 0; p_retryDelay := None;
                              p_retryCondition := None |})
            "/health" None (initial 0%nat)))
     = [EvRequest health_request].
Proof.
  split; [reflexivity|].
  exact (client_without_retries_asks_once (scripted [] (inr unavailable))
           {| p_retries := Some 0; p_retryDelay := None; p_retryCondition := None |}
           "/health" None 0%nat eq_refl).
Defined.

(** X6: a failure that is not transient ends the retries wherever it
    occurs: after m transient failures, m <= retries, the client (default
    retry condition) raises the failure of attempt m + 1 if it is not
    transient, having made m + 1 requests and awaited the m delays before
    them, and no later request is made. *)
Theorem non_transient_failure_ends_retries {W : Type}
    (transport : W -> AxiosRequestConfig -> (AxiosResponse + Failure) * W)
    (cfg : AxiosRequestConfig) (rc : RetryConfig) (s : W) (m : nat)
    (f : Failure) :
  Z.of_nat m <= retries rc ->
  retryCondition rc = Some DEFAULT_retryCondition ->
  (forall i, (i < m)%nat ->
     exists f', outcome_at transport cfg i s = inr f' /\ transient f') ->
  outcome_at transport cfg m s = inr f ->
  ~ transient f ->
  fst (axiosRetry transport cfg rc (initial s)) = Throw (ThrownFailure f)
  /\ trace (snd (axiosRetry transport cfg rc (initial s)))
     = backoff_rounds cfg (retryDelay rc) m 0 ++ [EvRequest cfg]
  /\ attempts (trace (snd (axiosRetry transport cfg rc (initial s)))) = S m
  /\ delays (trace (snd (axiosRetry transport cfg rc (initial s))))
     = backoff_delays (retryDelay rc) m 0.
Proof.
  intros Hm Hrc Hall Hout Hnt.
  rewrite (axiosRetry_rejects transport cfg rc (initial s) m f Hm).
  - cbn [fst snd]. rewrite attempts_after_attempt, delays_after_attempt. done.
  - by apply retried_before_default.
  - exact Hout.
  - right. unfold retryCondition_call. rewrite Hrc.
    destruct (DEFAULT_retryCondition (as_AxiosError f)) eqn:Hcall; [|done].
    by destruct Hnt.
Qed.

Lemma non_transient_failure_ends_retries_witness :
  (forall i, (i < 1)%nat ->
     exists f', outcome_at (scripted [inr unavailable] (inr bad_request))
                  sample_config i 0%nat = inr f' /\ transient f')
  /\ ~ transient bad_request
  /\ fst (axiosRetry (scripted [inr unavailable] (inr bad_request)) sample_config
            DEFAULT_RETRY_CONFIG (initial 0%nat))
     = Throw (ThrownFailure bad_request)
  /\ attempts (trace (snd (axiosRetry (scripted [inr unavailable] (inr bad_request))
                             sample_config DEFAULT_RETRY_CONFIG (initial 0%nat))))
     = 2%nat.
Proof.
  assert (forall i, (i < 1)%nat ->
     exists f', outcome_at (scripted [inr unavailable] (inr bad_request))
                  sample_config i 0%nat = inr f' /\ transient f') as Hall.
  { intros i Hi. destruct i as [|i]; [|lia].
    exists unavailable. split; reflexivity. }
  assert (~ transient bad_request) as Hnt by (intros H; discriminate H).
  split; [exact Hall|]. split; [exact Hnt|].
  destruct (non_transient_failure_ends_retries
              (scripted [inr unavailable] (inr bad_request)) sample_config
              DEFAULT_RETRY_CONFIG 0%nat 1 bad_request
              ltac:(cbn; lia) eq_refl Hall eq_refl Hnt)
    as (Hthrow & _ & Hattempts & _).
  split; [exact Hthrow|exact Hattempts].
Defined.

(** X7: a client constructed with a negative retry count never reaches
    the transport: every [get] raises [undefined] and leaves the world as it
    was, and normalising what was raised gives the message "An unexpected
    error occurred" without status or code. *)
Theorem client_with_negative_retries_never_asks {W : Type}
    (transport : W -> AxiosRequestConfig -> (AxiosResponse + Failure) * W)
    (overrides : PartialRetryConfig) (count : Z) (url' : string)
    (config : option AxiosRequestConfig) (w : World W) :
  p_retries overrides = Some count ->
  count < 0 ->
  ApiClient_get transport (ApiClient_new overrides) url' config w
  = (Throw (ThrownValue JUndefined), w)
  /\ handleApiError (ThrownValue JUndefined)
     = {| message := JPrim (JStr "An unexpected error occurred");
          status := None; code := None; details := None |}.
Proof.
  intros Hcount Hneg. split; [|reflexivity].
  unfold ApiClient_get, mbind, Prog_bind.
  rewrite axiosRetry_negative_retries; [done|].
  cbn. rewrite Hcount. exact Hneg.
Qed.

Lemma client_with_negative_retries_never_asks_witness :
  -1 < 0
  /\ ApiClient_get (scripted [] (inl ok_response))
       (ApiClient_new {| p_retries := Some (-1); p_retryDelay := None;
                         p_retryCondition := None |})
       "/health" None (initial 0%nat)
     = (Throw (ThrownValue JUndefined), initial 0%nat).
Proof.
  split; [lia|].
  exact (proj1 (client_with_negative_retries_never_asks
                  (scripted [] (inl ok_response))
                  {| p_retries := Some (-1); p_retryDelay := None;
                     p_retryCondition := None |}
                  (-1) "/health" None (initial 0%nat) eq_refl ltac:(lia))).
Defined.

(** ** What the verbs dispatch *)

Lemma verb_requests {W : Type}
    (transport : W -> AxiosRequestConfig -> (AxiosResponse + Failure) * W)
    (cfg : AxiosRequestConfig) (rc : RetryConfig) (s : W) :
  forall dispatched,
    dispatched ∈ requests (trace (snd
      ((response ← axiosRetry transport cfg rc; mret (resp_data response))
         (initial s)))) ->
    dispatched = cfg.
Proof.
  intros dispatched. unfold mbind, Prog_bind.
  destruct (axiosRetry_from_trace transport cfg rc
              (Z.to_nat (retries rc + 1)) 0 (ThrownValue JUndefined) (initial s))
    as (added & Htrace & Hreq & _).
  fold (axiosRetry transport cfg rc) in Htrace.
  destruct (axiosRetry transport cfg rc (initial s)) as [[response|e] w'];
    cbn [snd mret Prog_ret] in *; rewrite Htrace; cbn [initial trace app];
    rewrite Hreq; intros Hin; by apply elem_of_replicate in Hin as [-> _].
Qed.

(** X8: the method and the URL of every request are those of the call,
    whatever the caller's configuration says; [get] and [delete] pass the
    caller's data, headers and timeout through, [post] and [put] pass headers
    and timeout through and send the data argument in place of any data of
    the configuration. *)
Theorem verbs_fix_method_and_url {W : Type}
    (transport : W -> AxiosRequestConfig -> (AxiosResponse + Failure) * W)
    (this : ApiClient) (url' : string) (data' : RequestData)
    (config : option AxiosRequestConfig) (s : W) :
  (forall dispatched,
     dispatched ∈ requests (trace (snd
       (ApiClient_get transport this url' config (initial s)))) ->
     dispatched = {| url := Some url'; method := Some GET;
                     data := data (spread config);
                     headers := headers (spread config);
                     timeout := timeout (spread config) |})
  /\ (forall dispatched,
        dispatched ∈ requests (trace (snd
          (ApiClient_delete transport this url' config (initial s)))) ->
        dispatched = {| url := Some url'; method := Some DELETE;
                        data := data (spread config);
                        headers := headers (spread config);
                        timeout := timeout (spread config) |})
  /\ (forall dispatched,
        dispatched ∈ requests (trace (snd
          (ApiClient_post transport this url' data' config (initial s)))) ->
        dispatched = {| url := Some url'; method := Some POST;
                        data := data';
                        headers := headers (spread config);
                        timeout := timeout (spread config) |})
  /\ (forall dispatched,
        dispatched ∈ requests (trace (snd
          (ApiClient_put transport this url' data' config (initial s)))) ->
        dispatched = {| url := Some url'; method := Some PUT;
                        data := data';
                        headers := headers (spread config);
                        timeout := timeout (spread config) |}).
Proof.
  repeat split; intros dispatched Hin;
    exact (verb_requests transport _ (retryConfig this) s dispatched Hin).
Qed.

(** ** Normalisation, both directions *)

(** X9: the normalised error has a status exactly when the failure is an
    AxiosError with a response, and details exactly then; it has a code
    exactly when the failure is an AxiosError with a code that has a response
    or a request: the code of an AxiosError with neither is dropped, and so
    is everything but the message of any other thrown value. *)
Theorem handleApiError_fields (error : Thrown) :
  (forall st,
     status (handleApiError error) = Some st <->
     exists axiosError response,
       error = ThrownFailure (AxiosErr axiosError)
       /\ err_response axiosError = Some response
       /\ resp_status response = st)
  /\ (forall body,
        details (handleApiError error) = Some body <->
        exists axiosError response,
          error = ThrownFailure (AxiosErr axiosError)
          /\ err_response axiosError = Some response
          /\ resp_data response = body)
  /\ (forall c,
        code (handleApiError error) = Some c <->
        exists axiosError,
          error = ThrownFailure (AxiosErr axiosError)
          /\ err_code axiosError = Some c
          /\ (is_Some (err_response axiosError)
              \/ err_request axiosError = true)).
Proof.
  destruct error as [[ae|msg]|p].
  2,3: cbn; repeat split; try discriminate;
       try (intros (ae' & ? & Heq & _); discriminate Heq);
       intros (ae' & Heq & _); discriminate Heq.
  cbn. destruct (err_response ae) as [response|] eqn:Hresp; cbn.
  - repeat split.
    + intros [= <-]. by exists ae, response.
    + intros (ae' & r' & [= <-] & Hr & <-). congruence.
    + intros [= <-]. by exists ae, response.
    + intros (ae' & r' & [= <-] & Hr & <-). congruence.
    + intros Hc. exists ae. rewrite Hresp. split; [done|]. split; [done|].
      left. by eexists.
    + by intros (ae' & [= <-] & Hc & _).
  - destruct (err_request ae) eqn:Hreq; cbn.
    + repeat split; try discriminate.
      * intros (ae' & r' & [= <-] & Hr & _). congruence.
      * intros (ae' & r' & [= <-] & Hr & _). congruence.
      * intros Hc. exists ae. split; [done|]. split; [done|]. by right.
      * by intros (ae' & [= <-] & Hc & _).
    + repeat split; try discriminate.
      * intros (ae' & r' & [= <-] & Hr & _). congruence.
      * intros (ae' & r' & [= <-] & Hr & _). congruence.
      * intros (ae' & [= <-] & Hc & [[r Hr]|Hr]); congruence.
Qed.

(** ** What the user of a service sees *)

Lemma rewraps_raises {W A : Type} (service wrapped : Prog W A) w e w' :
  rewraps service wrapped ->
  wrapped w = (Throw e, w') ->
  service w
  = (Throw (ThrownFailure (ErrorObj (Error_message (message (handleApiError e))))),
     w').
Proof. intros Hre Hw. specialize (Hre w). by rewrite Hw in Hre. Qed.

Lemma verb_raises {W : Type}
    (transport : W -> AxiosRequestConfig -> (AxiosResponse + Failure) * W)
    (cfg : AxiosRequestConfig) (rc : RetryConfig) (w : World W) e w' :
  axiosRetry transport cfg rc w = (Throw e, w') ->
  (response ← axiosRetry transport cfg rc; mret (resp_data response)) w
  = (Throw e, w').
Proof. intros Hrun. unfold mbind, Prog_bind. by rewrite Hrun. Qed.

Lemma unreachable_default_run {W : Type}
    (transport : W -> AxiosRequestConfig -> (AxiosResponse + Failure) * W)
    (cfg : AxiosRequestConfig) (s : W) :
  backend_unreachable transport s ->
  exists axiosError,
    err_response axiosError = None
    /\ err_request axiosError = true
    /\ axiosRetry transport cfg DEFAULT_RETRY_CONFIG (initial s)
       = (Throw (ThrownFailure (AxiosErr axiosError)),
          after_attempt transport cfg DEFAULT_RETRY_CONFIG (initial s) 3).
Proof.
  intros Hdown.
  destruct (Hdown cfg 3%nat ltac:(lia)) as (ae & Hout & Hresp & Hreq).
  exists ae. split; [exact Hresp|]. split; [exact Hreq|].
  apply axiosRetry_rejects; [cbn; lia| |exact Hout|by left].
  intros i Hi. destruct (Hdown cfg i ltac:(lia)) as (ae' & Hout' & Hresp' & _).
  exists (AxiosErr ae'). split; [exact Hout'|].
  cbn. unfold DEFAULT_retryCondition. by rewrite Hresp'.
Qed.

Lemma unreachable_service {W A : Type}
    (transport : W -> AxiosRequestConfig -> (AxiosResponse + Failure) * W)
    (service : Prog W A) (cfg : AxiosRequestConfig) (f : JsValue -> A) (s : W) :
  rewraps service
    (response ← axiosRetry transport cfg DEFAULT_RETRY_CONFIG;
     mret (f (resp_data response))) ->
  backend_unreachable transport s ->
  raises_after_backoff transport service cfg s
    "Network error - please check your connection".
Proof.
  intros Hre Hdown.
  destruct (unreachable_default_run transport cfg s Hdown)
    as (ae & Hresp & Hreq & Hrun).
  unfold raises_after_backoff.
  rewrite (rewraps_raises _ _ (initial s) (ThrownFailure (AxiosErr ae))
             (after_attempt transport cfg DEFAULT_RETRY_CONFIG (initial s) 3) Hre).
  - cbn. rewrite Hresp, Hreq. reflexivity.
  - unfold mbind, Prog_bind. by rewrite Hrun.
Qed.

(** X10: when the backend cannot be reached, each service wrapper makes
    the four attempts of the default client with delays of 1000, 2000 and
    4000 ms between them and then raises Error("Network error - please check
    your connection"). *)
Theorem services_report_network_error {W : Type}
    (transport : W -> AxiosRequestConfig -> (AxiosResponse + Failure) * W)
    (s : W) :
  backend_unreachable transport s ->
  (forall request,
     raises_after_backoff transport (summarizeText transport request)
       (json_post "/api/summarize" request) s
       "Network error - please check your connection")
  /\ (forall request,
        raises_after_backoff transport (answerQuestion transport request)
          (json_post "/api/qa" request) s
          "Network error - please check your connection")
  /\ (forall question file,
        raises_after_backoff transport
          (answerQuestionWithFile transport question file)
          (file_post question file) s
          "Network error - please check your connection")
  /\ (forall request,
        raises_after_backoff transport (generatePath transport request)
          (json_post "/api/learning-path" request) s
          "Network error - please check your connection")
  /\ raises_after_backoff transport (checkHealth transport) health_request s
       "Network error - please check your connection".
Proof.
  intros Hdown.
  repeat split; intros;
    apply (unreachable_service transport _ _ (fun body => body)); try exact Hdown;
    apply try_catch_rewraps.
Qed.

Lemma services_report_network_error_witness :
  backend_unreachable (scripted [] (inr network_error)) 0%nat
  /\ fst (summarizeText (scripted [] (inr network_error))
            (JObj {[ "text" := JPrim (JStr "Some text to summarize") ]})
            (initial 0%nat))
     = Throw (ThrownFailure
                (ErrorObj "Network error - please check your connection")).
Proof.
  assert (backend_unreachable (scripted [] (inr network_error)) 0%nat) as Hdown.
  { intros cfg i Hi.
    do 4 (destruct i as [|i];
          [eexists; split; [reflexivity|split; reflexivity]|]).
    lia. }
  split; [exact Hdown|].
  exact (f_equal fst
           (proj1 (services_report_network_error
                     (scripted [] (inr network_error)) 0%nat Hdown)
              (JObj {[ "text" := JPrim (JStr "Some text to summarize") ]}))).
Defined.




(** X12: the two health checks agree: [checkApiHealth] returns true
    exactly when [healthService.checkHealth] returns a body, false exactly
    when it raises, and both leave the same world behind: the same requests
    and the same delays. *)
Theorem health_checks_agree {W : Type}
    (transport : W -> AxiosRequestConfig -> (AxiosResponse + Failure) * W)
    (w : World W) :
  snd (checkApiHealth transport w) = snd (checkHealth transport w)
  /\ (fst (checkApiHealth transport w) = Return true <->
      exists body, fst (checkHealth transport w) = Return body)
  /\ (fst (checkApiHealth transport w) = Return false <->
      exists text,
        fst (checkHealth transport w) = Throw (ThrownFailure (ErrorObj text))).
Proof.
  rewrite checkApiHealth_unfold.
  assert (rewraps (checkHealth transport)
            (ApiClient_get transport api "/health" None)) as Hre
    by apply try_catch_rewraps.
  specialize (Hre w).
  destruct (ApiClient_get transport api "/health" None w) as [[body|e] w'];
    rewrite Hre; cbn [fst snd].
  - split; [done|]. split; split; try done.
    + intros _. by exists body.
    + by intros (text & Htext).
  - split; [done|]. split; split; try done.
    + by intros (body & Hbody).
    + intros _. by eexists.
Qed.

(** * The notification provider *)

Lemma slice_to_length {A : Type} (l : list A) (end_ : Z) :
  0 <= end_ -> Z.of_nat (length (slice_to l end_)) = Z.min end_ (Z.of_nat (length l)).
Proof.
  intros Hend. unfold slice_to.
  destruct (end_ <? 0) eqn:Hneg; [lia|]. rewrite length_take. lia.
Qed.

Lemma addNotification_cons (maxNotifications : Z)
    (id' : string) (notification : NotificationProvider.Draft)
    (prev : list NotificationProvider.Notification) :
  1 <= maxNotifications ->
  NotificationProvider.addNotification maxNotifications id' notification prev
  = {| NotificationProvider.id := id';
       NotificationProvider.message :=
         NotificationProvider.draft_message notification;
       NotificationProvider.type := NotificationProvider.draft_type notification;
       NotificationProvider.duration :=
         NotificationProvider.draft_duration notification |}
      :: take (Z.to_nat (maxNotifications - 1)) prev.
Proof.
  intros Hmax. unfold NotificationProvider.addNotification.
  unfold slice_to. destruct (maxNotifications <? 0) eqn:Hneg; [lia|].
  cbn [length].
  destruct (Z.to_nat (Z.min maxNotifications (Z.of_nat (S (length prev)))))
    as [|n] eqn:Hn; [lia|].
  cbn [take]. f_equal.
  destruct (decide (maxNotifications <= Z.of_nat (S (length prev)))).
  + f_equal. lia.
  + rewrite !take_ge by lia. reflexivity.
Qed.

Lemma filter_other_ids (id' : string)
    (l : list NotificationProvider.Notification) :
  Forall (fun n => NotificationProvider.id n <> id') l ->
  filter (fun n => NotificationProvider.id n <> id') l = l.
Proof.
  induction l as [|n l IH]; intros Hall; [done|].
  inversion Hall; subst. rewrite filter_cons_True by done. by rewrite IH.
Qed.

Lemma removeNotification_fresh (id' : string)
    (prev : list NotificationProvider.Notification) :
  id' ∉ map NotificationProvider.id prev ->
  NotificationProvider.removeNotification id' prev = prev.
Proof.
  intros Hfresh. apply filter_other_ids. apply Forall_forall. intros n Hn Heq.
  apply Hfresh. rewrite <- Heq. apply list_elem_of_fmap. by exists n.
Qed.

(** X13: with maxNotifications >= 1 the notification just added is the
    first of the list, the earlier ones follow in their order, only the
    oldest are dropped, and the list never holds more than maxNotifications
    notifications. *)
Theorem addNotification_newest_first_bounded (maxNotifications : Z)
    (id' : string) (notification : NotificationProvider.Draft)
    (prev : list NotificationProvider.Notification) :
  1 <= maxNotifications ->
  NotificationProvider.addNotification maxNotifications id' notification prev
  = {| NotificationProvider.id := id';
       NotificationProvider.message :=
         NotificationProvider.draft_message notification;
       NotificationProvider.type := NotificationProvider.draft_type notification;
       NotificationProvider.duration :=
         NotificationProvider.draft_duration notification |}
      :: take (Z.to_nat (maxNotifications - 1)) prev
  /\ Z.of_nat (length (NotificationProvider.addNotification maxNotifications id'
                         notification prev))
     = Z.min maxNotifications (1 + Z.of_nat (length prev)).
Proof.
  intros Hmax. split; [by apply addNotification_cons|].
  unfold NotificationProvider.addNotification.
  rewrite slice_to_length by lia. cbn [length]. lia.
Qed.

Lemma addNotification_newest_first_bounded_witness :
  1 <= 2
  /\ map NotificationProvider.id
       (NotificationProvider.addNotification 2 "c"
          {| NotificationProvider.draft_message := Some "third";
             NotificationProvider.draft_type := NotificationProvider.info_kind;
             NotificationProvider.draft_duration := None |}
          [ {| NotificationProvider.id := "b";
               NotificationProvider.message := Some "second";
               NotificationProvider.type := NotificationProvider.info_kind;
               NotificationProvider.duration := None |};
            {| NotificationProvider.id := "a";
               NotificationProvider.message := Some "first";
               NotificationProvider.type := NotificationProvider.info_kind;
               NotificationProvider.duration := None |} ])
     = ["c"; "b"].
Proof.
  split; [lia|].
  rewrite (proj1 (addNotification_newest_first_bounded 2 "c" _ _ ltac:(lia))).
  reflexivity.
Defined.

(** X14: with maxNotifications <= 0 the list never grows: adding a
    notification leaves at most as many as there were, so a provider that
    starts empty never shows any. *)
Theorem addNotification_without_room (maxNotifications : Z)
    (id' : string) (notification : NotificationProvider.Draft)
    (prev : list NotificationProvider.Notification) :
  maxNotifications <= 0 ->
  (length (NotificationProvider.addNotification maxNotifications id'
             notification prev) <= length prev)%nat
  /\ NotificationProvider.addNotification maxNotifications id' notification []
     = [].
Proof.
  intros Hmax. unfold NotificationProvider.addNotification, slice_to.
  cbn [length]. split.
  - rewrite length_take.
    destruct (maxNotifications <? 0) eqn:Hneg; lia.
  - destruct (maxNotifications <? 0) eqn:Hneg.
    + replace (Z.to_nat (Z.max (Z.of_nat 1 + maxNotifications) 0)) with 0%nat
        by lia.
      reflexivity.
    + replace (Z.to_nat (Z.min maxNotifications (Z.of_nat 1))) with 0%nat by lia.
      reflexivity.
Qed.

Lemma addNotification_without_room_witness :
  0 <= 0
  /\ NotificationProvider.addNotification 0 "a"
       {| NotificationProvider.draft_message := Some "first";
          NotificationProvider.draft_type := NotificationProvider.info_kind;
          NotificationProvider.draft_duration := None |} []
     = [].
Proof.
  split; [lia|].
  exact (proj2 (addNotification_without_room 0 "a" _ [] ltac:(lia))).
Defined.

(** X15: removing by id removes every notification with that id and
    nothing else: the others stay, in their order; removing an id that is
    not in the list changes nothing, and removing twice is removing once. *)
Theorem removeNotification_removes_exactly (id' : string)
    (prev : list NotificationProvider.Notification) :
  (forall notification,
     notification ∈ NotificationProvider.removeNotification id' prev <->
     notification ∈ prev /\ NotificationProvider.id notification <> id')
  /\ sublist (NotificationProvider.removeNotification id' prev) prev
  /\ (id' ∉ map NotificationProvider.id prev ->
      NotificationProvider.removeNotification id' prev = prev)
  /\ NotificationProvider.removeNotification id'
       (NotificationProvider.removeNotification id' prev)
     = NotificationProvider.removeNotification id' prev.
Proof.
  unfold NotificationProvider.removeNotification.
  split; [intros n; rewrite list_elem_of_filter; tauto|].
  split; [apply sublist_filter|].
  split; [apply removeNotification_fresh|].
  apply filter_other_ids. apply Forall_forall. intros n Hn.
  by apply list_elem_of_filter in Hn as [Hne _].
Qed.

(** X16: adding and then removing: when the id drawn does not occur in
    the list and the list is not full, removing the notification just added
    gives back the list as it was. *)
Theorem add_then_remove_restores (maxNotifications : Z)
    (id' : string) (notification : NotificationProvider.Draft)
    (prev : list NotificationProvider.Notification) :
  id' ∉ map NotificationProvider.id prev ->
  Z.of_nat (length prev) < maxNotifications ->
  NotificationProvider.removeNotification id'
    (NotificationProvider.addNotification maxNotifications id' notification prev)
  = prev.
Proof.
  intros Hfresh Hroom.
  rewrite addNotification_cons by lia.
  rewrite take_ge by lia.
  unfold NotificationProvider.removeNotification.
  rewrite filter_cons_False by (cbn; tauto).
  by apply removeNotification_fresh.
Qed.

Lemma add_then_remove_restores_witness :
  ("b" ∉ map NotificationProvider.id [sample_notification])
  /\ Z.of_nat 1 < 5
  /\ NotificationProvider.removeNotification "b"
       (NotificationProvider.addNotification 5 "b"
          {| NotificationProvider.draft_message := Some "second";
             NotificationProvider.draft_type := NotificationProvider.error_kind;
             NotificationProvider.draft_duration := Some 5000 |}
          [sample_notification])
     = [sample_notification].
Proof.
  assert ("b" ∉ map NotificationProvider.id [sample_notification]) as Hfresh.
  { cbn. intros Hin. apply list_elem_of_singleton in Hin. discriminate Hin. }
  split; [exact Hfresh|]. split; [lia|].
  exact (add_then_remove_restores 5 "b" _ _ Hfresh ltac:(cbn; lia)).
Defined.

(** X17: the duration stored with an error notification: with room for it
    (maxNotifications >= 1) the notification [error] puts first has kind
    error, the message given and a stored duration that is never missing
    and never 0: the duration given when there is one other than 0 (a
    negative one is stored as it is), and 5000 otherwise. What the display
    does with the stored duration is not part of the statement. *)
Theorem error_notification_duration (maxNotifications : Z) (id' : string)
    (text : option string) (duration' : option Z)
    (prev : list NotificationProvider.Notification) :
  1 <= maxNotifications ->
  exists ms,
    NotificationProvider.error maxNotifications id' text duration' prev
    = {| NotificationProvider.id := id';
         NotificationProvider.message := text;
         NotificationProvider.type := NotificationProvider.error_kind;
         NotificationProvider.duration := Some ms |}
        :: take (Z.to_nat (maxNotifications - 1)) prev
    /\ ms <> 0
    /\ (duration' = Some ms
        \/ ((duration' = None \/ duration' = Some 0) /\ ms = 5000)).
Proof.
  intros Hmax. unfold NotificationProvider.error.
  rewrite addNotification_cons by done. cbn.
  destruct duration' as [d|]; cbn.
  - destruct (d =? 0) eqn:Hd.
    + exists 5000. split; [done|]. split; [lia|]. right. split; [|done].
      right. f_equal. lia.
    + exists d. split; [done|]. split; [lia|]. by left.
  - exists 5000. split; [done|]. split; [lia|]. right. split; [by left|done].
Qed.

Lemma error_notification_duration_witness :
  1 <= 5
  /\ NotificationProvider.error 5 "b" (Some "Request failed") (Some 0)
       [sample_notification]
     = [ {| NotificationProvider.id := "b";
            NotificationProvider.message := Some "Request failed";
            NotificationProvider.type := NotificationProvider.error_kind;
            NotificationProvider.duration := Some 5000 |};
         sample_notification ].
Proof.
  split; [lia|].
  destruct (error_notification_duration 5 "b" (Some "Request failed") (Some 0)
              [sample_notification] ltac:(lia)) as (ms & Heq & Hnz & Hms).
  rewrite Heq. destruct Hms as [[= <-]|[_ ->]]; [by destruct Hnz|reflexivity].
Defined.

(** * Texts *)

Lemma trim_start_nil (l : list Ascii.ascii) :
  trim_start l = [] <-> forallb is_whitespace l = true.
Proof.
  induction l as [|c l IH]; [done|]. cbn.
  destruct (is_whitespace c); cbn; [exact IH|]. split; discriminate.
Qed.

Lemma trim_start_all (l : list Ascii.ascii) :
  forallb is_whitespace (trim_start l) = true -> trim_start l = [].
Proof.
  induction l as [|c l IH]; [done|]. cbn.
  destruct (is_whitespace c) eqn:Hc; [exact IH|].
  cbn. rewrite Hc. discriminate.
Qed.

(** A text is blank exactly when each of its code units is white space. *)
Lemma blank_iff_whitespace (text : string) :
  blank text = true <->
  forallb is_whitespace (String.list_ascii_of_string text) = true.
Proof.
  unfold blank, js_trim. rewrite String.eqb_eq.
  set (l := String.list_ascii_of_string text).
  split.
  - intros Hempty.
    assert (rev (trim_start (rev (trim_start l))) = []) as Hrev.
    { destruct (rev (trim_start (rev (trim_start l)))); [done|discriminate]. }
    apply (f_equal (@rev _)) in Hrev. rewrite rev_involutive in Hrev. cbn in Hrev.
    apply trim_start_nil in Hrev.
    apply trim_start_nil, trim_start_all.
    rewrite List.forallb_forall in *. intros c Hc.
    apply Hrev. by apply List.in_rev in Hc.
  - intros Hall. apply trim_start_nil in Hall. rewrite Hall. reflexivity.
Qed.

(** * The forms *)

(** ** Summarization *)

Lemma Summarization_validateForm_true (fd : Summarization.FormData) :
  snd (Summarization.validateForm fd) = true <->
  blank (Summarization.text fd) = false
  /\ 10 <= js_length (Summarization.text fd) <= 10000
  /\ 50 <= Summarization.maxLength fd <= 500.
Proof.
  unfold Summarization.validateForm. cbn [snd].
  destruct (blank (Summarization.text fd)); [split; [done|by intros [? _]]|].
  destruct (js_length (Summarization.text fd) <? 10) eqn:H10;
    [split; [done|lia]|].
  destruct (js_length (Summarization.text fd) >? 10000) eqn:H10000;
    [split; [done|lia]|].
  destruct (Summarization.maxLength fd <? 50) eqn:H50; cbn [orb];
    [split; [done|lia]|].
  destruct (Summarization.maxLength fd >? 500) eqn:H500;
    [split; [done|lia]|].
  split; [lia|done].
Qed.

Lemma Summarization_validateForm_no_errors (fd : Summarization.FormData) :
  snd (Summarization.validateForm fd) = true <->
  fst (Summarization.validateForm fd) = Summarization.no_errors.
Proof.
  unfold Summarization.validateForm, Summarization.no_errors. cbn [fst snd].
  repeat match goal with
         | |- context [if ?b then _ else _] => destruct b
         end; split; congruence.
Qed.

(** X18: the summarization form is accepted exactly when the text is not
    blank, its untrimmed length is between 10 and 10000 inclusive, and the
    summary length is between 50 and 500 inclusive; it is accepted exactly
    when no error is set, and an accepted form is one whose submit button is
    enabled whenever no request is running. *)
Theorem Summarization_validateForm_accepts (st : Summarization.State) :
  (snd (Summarization.validateForm (Summarization.formData st)) = true <->
   blank (Summarization.text (Summarization.formData st)) = false
   /\ 10 <= js_length (Summarization.text (Summarization.formData st)) <= 10000
   /\ 50 <= Summarization.maxLength (Summarization.formData st) <= 500)
  /\ (snd (Summarization.validateForm (Summarization.formData st)) = true <->
      fst (Summarization.validateForm (Summarization.formData st))
      = Summarization.no_errors)
  /\ (snd (Summarization.validateForm (Summarization.formData st)) = true ->
      Summarization.isLoading st = false ->
      Summarization.submit_disabled st = false).
Proof.
  split; [apply Summarization_validateForm_true|]. split.
  - apply Summarization_validateForm_no_errors.
  - intros Hvalid Hidle. apply Summarization_validateForm_true in Hvalid.
    unfold Summarization.submit_disabled. rewrite Hidle. cbn. tauto.
Qed.

(** X19: submitting a form that is not accepted sends nothing: the
    errors are set, and the world (no request, no delay), the notifications
    and every other part of the state are as they were. *)
Theorem Summarization_invalid_submit_sends_nothing {W : Type}
    (transport : W -> AxiosRequestConfig -> (AxiosResponse + Failure) * W)
    (maxNotifications : Z) (id' : string) (st : Summarization.State)
    (shown : list NotificationProvider.Notification) (w : World W) :
  snd (Summarization.validateForm (Summarization.formData st)) = false ->
  Summarization.handleSubmit transport maxNotifications id' st shown w
  = ({| Summarization.formData := Summarization.formData st;
        Summarization.errors :=
          fst (Summarization.validateForm (Summarization.formData st));
        Summarization.isLoading := Summarization.isLoading st;
        Summarization.result := Summarization.result st;
        Summarization.apiError := Summarization.apiError st |},
     shown, w)
  /\ fst (Summarization.validateForm (Summarization.formData st))
     <> Summarization.no_errors.
Proof.
  intros Hinvalid. split.
  - unfold Summarization.handleSubmit.
    destruct (Summarization.validateForm (Summarization.formData st))
      as [newErrors valid].
    cbn in Hinvalid. subst valid. reflexivity.
  - intros Hnone. apply Summarization_validateForm_no_errors in Hnone.
    congruence.
Qed.

Lemma Summarization_invalid_submit_sends_nothing_witness :
  snd (Summarization.validateForm (Summarization.formData empty_summarization))
  = false
  /\ Summarization.handleSubmit (scripted [] (inl ok_response)) 5 "a"
       empty_summarization [] (initial 0%nat)
     = ({| Summarization.formData := Summarization.formData empty_summarization;
           Summarization.errors :=
             {| Summarization.errors_text := Some "Text is required";
                Summarization.errors_maxLength := None |};
           Summarization.isLoading := false;
           Summarization.result := None;
           Summarization.apiError := None |},
        [], initial 0%nat).
Proof.
  split; [reflexivity|].
  exact (proj1 (Summarization_invalid_submit_sends_nothing
                  (scripted [] (inl ok_response)) 5 "a" empty_summarization []
                  (initial 0%nat) eq_refl)).
Defined.



(** ** Questions *)

Lemma QA_validateForm_true (fd : QA.FormData) :
  snd (QA.validateForm fd) = true <->
  blank (QA.question fd) = false
  /\ 5 <= js_length (QA.question fd) <= 500
  /\ match QA.inputMode fd with
     | QA.text_mode =>
         blank (QA.documentText fd) = false
         /\ 10 <= js_length (QA.documentText fd)
     | QA.file_mode =>
         exists chosen,
           QA.file fd = Some chosen
           /\ QA.file_size chosen <= 10 * 1024 * 1024
           /\ String.prefix "text/" (QA.file_type chosen) = true
     end.
Proof.
  unfold QA.validateForm. cbn [snd].
  destruct (blank (QA.question fd)); [split; [done|by intros [? _]]|].
  destruct (js_length (QA.question fd) <? 5) eqn:H5; [split; [done|lia]|].
  destruct (js_length (QA.question fd) >? 500) eqn:H500; [split; [done|lia]|].
  destruct (QA.inputMode fd).
  - destruct (blank (QA.documentText fd)); [split; [done|by intros (_ & _ & ? & _)]|].
    destruct (js_length (QA.documentText fd) <? 10) eqn:H10;
      [split; [done|lia]|].
    split; [lia|done].
  - destruct (QA.file fd) as [chosen|];
      [|split; [done|by intros (_ & _ & ? & ? & _)]].
    destruct (QA.file_size chosen >? 10 * 1024 * 1024) eqn:Hsize.
    { split; [done|]. intros (_ & _ & c & [= <-] & Hc & _). lia. }
    destruct (String.prefix "text/" (QA.file_type chosen)) eqn:Hprefix; cbn.
    + split; [|done]. intros _. split; [done|]. split; [lia|].
      exists chosen. split; [done|]. split; [lia|done].
    + split; [done|]. intros (_ & _ & c & [= <-] & _ & Hc). congruence.
Qed.

Lemma QA_validateForm_no_errors (fd : QA.FormData) :
  snd (QA.validateForm fd) = true <-> fst (QA.validateForm fd) = QA.no_errors.
Proof.
  unfold QA.validateForm, QA.no_errors. cbn [fst snd].
  destruct (QA.inputMode fd); [|destruct (QA.file fd)];
    repeat match goal with
           | |- context [if ?b then _ else _] => destruct b
           end; split; congruence.
Qed.

(** X21: the question form is accepted exactly when the question is not
    blank and between 5 and 500 code units long and, in text mode, the
    document is not blank and at least 10 long (no upper bound), or, in file
    mode, a file is chosen, of at most 10 * 1024 * 1024 bytes and of a type
    starting with text/. An accepted form has its submit button enabled when
    no request is running, and just after a change of mode the form is never
    accepted. *)
Theorem QA_validateForm_accepts (st : QA.State) :
  (snd (QA.validateForm (QA.formData st)) = true <->
   blank (QA.question (QA.formData st)) = false
   /\ 5 <= js_length (QA.question (QA.formData st)) <= 500
   /\ match QA.inputMode (QA.formData st) with
      | QA.text_mode =>
          blank (QA.documentText (QA.formData st)) = false
          /\ 10 <= js_length (QA.documentText (QA.formData st))
      | QA.file_mode =>
          exists chosen,
            QA.file (QA.formData st) = Some chosen
            /\ QA.file_size chosen <= 10 * 1024 * 1024
            /\ String.prefix "text/" (QA.file_type chosen) = true
      end)
  /\ (snd (QA.validateForm (QA.formData st)) = true ->
      QA.isLoading st = false -> QA.submit_disabled st = false)
  /\ (forall mode,
        snd (QA.validateForm (QA.formData (QA.handleModeChange mode st)))
        = false).
Proof.
  split; [apply QA_validateForm_true|]. split.
  - intros Hvalid Hidle. apply QA_validateForm_true in Hvalid.
    destruct Hvalid as (Hq & _ & Hdoc).
    unfold QA.submit_disabled, QA.isFormValid. rewrite Hidle, Hq. cbn.
    destruct (QA.inputMode (QA.formData st)).
    + destruct Hdoc as [-> _]. reflexivity.
    + destruct Hdoc as (chosen & -> & _). reflexivity.
  - intros mode.
    destruct (snd (QA.validateForm (QA.formData (QA.handleModeChange mode st))))
      eqn:Hvalid; [|done].
    apply QA_validateForm_true in Hvalid. destruct Hvalid as (_ & _ & Hdoc).
    destruct mode; cbn in Hdoc.
    + destruct Hdoc as [Hblank _]. discriminate Hblank.
    + destruct Hdoc as (chosen & Hfile & _). discriminate Hfile.
Qed.



(** X23: submitting a question form that is not accepted sends nothing:
    only the errors change, and at least one error is set. *)
Theorem QA_invalid_submit_sends_nothing {W : Type}
    (transport : W -> AxiosRequestConfig -> (AxiosResponse + Failure) * W)
    (maxNotifications : Z) (id' : string) (st : QA.State)
    (shown : list NotificationProvider.Notification) (w : World W) :
  snd (QA.validateForm (QA.formData st)) = false ->
  QA.handleSubmit transport maxNotifications id' st shown w
  = ({| QA.formData := QA.formData st;
        QA.errors := fst (QA.validateForm (QA.formData st));
        QA.isLoading := QA.isLoading st;
        QA.result := QA.result st;
        QA.apiError := QA.apiError st |},
     shown, w)
  /\ fst (QA.validateForm (QA.formData st)) <> QA.no_errors.
Proof.
  intros Hinvalid. split.
  - unfold QA.handleSubmit.
    destruct (QA.validateForm (QA.formData st)) as [newErrors valid].
    cbn in Hinvalid. subst valid. reflexivity.
  - intros Hnone. apply QA_validateForm_no_errors in Hnone. congruence.
Qed.

Lemma QA_invalid_submit_sends_nothing_witness :
  snd (QA.validateForm (QA.formData (QA.handleModeChange QA.text_mode
                                        filled_question))) = false
  /\ snd (QA.handleSubmit (scripted [] (inl ok_response)) 5 "a"
            (QA.handleModeChange QA.text_mode filled_question) []
            (initial 0%nat))
     = initial 0%nat.
Proof.
  split; [reflexivity|].
  exact (f_equal snd
           (proj1 (QA_invalid_submit_sends_nothing
                     (scripted [] (inl ok_response)) 5 "a"
                     (QA.handleModeChange QA.text_mode filled_question) []
                     (initial 0%nat) eq_refl))).
Defined.

(** ** The learning path form *)


Lemma addFocusArea_elem (area : string) (focusAreas : list string) a :
  a ∈ LearningPath.addFocusArea area focusAreas ->
  a ∈ focusAreas \/ (a = area /\ area <> "" /\ area ∉ focusAreas).
Proof.
  unfold LearningPath.addFocusArea.
  destruct (String.eqb_spec area ""); cbn; [by left|].
  case_bool_decide; cbn; [by left|].
  rewrite elem_of_app, list_elem_of_singleton. intros [Hin | ->]; [by left|by right].
Qed.

Lemma addFocusArea_NoDup (area : string) (focusAreas : list string) :
  NoDup focusAreas -> NoDup (LearningPath.addFocusArea area focusAreas).
Proof.
  intros Hnd. unfold LearningPath.addFocusArea.
  destruct (String.eqb area ""); cbn; [done|].
  case_bool_decide; cbn; [done|].
  apply NoDup_app. split; [done|]. split; [|apply NoDup_singleton].
  intros a Ha Hin. apply list_elem_of_singleton in Hin. by subst.
Qed.

(** X24: the chosen focus areas stay distinct and none of them is the
    empty string: both are preserved by adding a suggested area, by adding
    the custom area typed (trimmed), and by removing an area. *)
Theorem focus_areas_stay_distinct (area customFocusArea : string)
    (focusAreas : list string) :
  NoDup focusAreas ->
  "" ∉ focusAreas ->
  (NoDup (LearningPath.addFocusArea area focusAreas)
   /\ "" ∉ LearningPath.addFocusArea area focusAreas)
  /\ (NoDup (LearningPath.removeFocusArea area focusAreas)
      /\ "" ∉ LearningPath.removeFocusArea area focusAreas)
  /\ (NoDup (fst (LearningPath.addCustomFocusArea customFocusArea focusAreas))
      /\ "" ∉ fst (LearningPath.addCustomFocusArea customFocusArea focusAreas)).
Proof.
  intros Hnd Hne.
  assert (forall a, "" ∉ LearningPath.addFocusArea a focusAreas) as Hadd.
  { intros a Hin. apply addFocusArea_elem in Hin as [Hin|(Heq & Hnon & _)];
      [done|congruence]. }
  split; [split; [by apply addFocusArea_NoDup|apply Hadd]|].
  split.
  - unfold LearningPath.removeFocusArea. split; [by apply NoDup_filter|].
    intros Hin. apply list_elem_of_filter in Hin as [_ Hin]. done.
  - unfold LearningPath.addCustomFocusArea.
    destruct (blank customFocusArea); cbn; [done|].
    split; [by apply addFocusArea_NoDup|apply Hadd].
Qed.

Lemma focus_areas_stay_distinct_witness :
  NoDup ["Leadership"]
  /\ ("" ∉ ["Leadership"])
  /\ LearningPath.addCustomFocusArea "  Problem Solving " ["Leadership"]
     = (["Leadership"; "Problem Solving"], "")
  /\ NoDup (fst (LearningPath.addCustomFocusArea "  Problem Solving "
                   ["Leadership"])).
Proof.
  assert (NoDup ["Leadership"]) as Hnd by apply NoDup_singleton.
  assert ("" ∉ ["Leadership"]) as Hne.
  { intros Hin. apply list_elem_of_singleton in Hin. discriminate Hin. }
  split; [exact Hnd|]. split; [exact Hne|]. split; [reflexivity|].
  exact (proj1 (proj2 (proj2 (focus_areas_stay_distinct "" "  Problem Solving "
                                ["Leadership"] Hnd Hne)))).
Defined.



(** X26: expanding and collapsing a phase: a toggle flips whether that
    phase is expanded and leaves every other phase as it was, and two toggles
    of the same phase give back the set. *)
Theorem togglePhaseExpansion_flips (phaseNumber : Z) (expandedPhases : gset Z) :
  (phaseNumber ∈ LearningPath.togglePhaseExpansion phaseNumber expandedPhases
   <-> phaseNumber ∉ expandedPhases)
  /\ (forall other, other <> phaseNumber ->
        other ∈ LearningPath.togglePhaseExpansion phaseNumber expandedPhases
        <-> other ∈ expandedPhases)
  /\ LearningPath.togglePhaseExpansion phaseNumber
       (LearningPath.togglePhaseExpansion phaseNumber expandedPhases)
     = expandedPhases.
Proof.
  unfold LearningPath.togglePhaseExpansion.
  destruct (decide (phaseNumber ∈ expandedPhases)) as [Hin|Hnot].
  - rewrite (bool_decide_eq_true_2 _ Hin).
    assert (phaseNumber ∉ expandedPhases ∖ {[phaseNumber]}) as Hout.
    { rewrite elem_of_difference, elem_of_singleton. tauto. }
    rewrite (bool_decide_eq_false_2 _ Hout).
    split; [tauto|]. split.
    + intros other Hne. rewrite elem_of_difference, elem_of_singleton. tauto.
    + apply set_eq. intros x.
      rewrite elem_of_union, elem_of_difference, elem_of_singleton.
      destruct (decide (x = phaseNumber)) as [->|]; tauto.
  - rewrite (bool_decide_eq_false_2 _ Hnot).
    assert (phaseNumber ∈ expandedPhases ∪ {[phaseNumber]}) as Hnow.
    { rewrite elem_of_union, elem_of_singleton. tauto. }
    rewrite (bool_decide_eq_true_2 _ Hnow).
    split; [tauto|]. split.
    + intros other Hne. rewrite elem_of_union, elem_of_singleton. tauto.
    + apply set_eq. intros x.
      rewrite elem_of_difference, elem_of_union, elem_of_singleton.
      destruct (decide (x = phaseNumber)) as [->|]; tauto.
Qed.

Lemma LearningPath_validateForm_true (goals : string) :
  snd (LearningPath.validateForm goals) = true <->
  blank goals = false /\ 10 <= js_length goals <= 1000.
Proof.
  unfold LearningPath.validateForm. cbn [snd].
  destruct (blank goals); [split; [done|by intros [? _]]|].
  destruct (js_length goals <? 10) eqn:H10; [split; [done|lia]|].
  destruct (js_length goals >? 1000) eqn:H1000; [split; [done|lia]|].
  split; [lia|done].
Qed.

(** X27: the learning goals are accepted exactly when they are not blank
    (which is also what enables the submit button) and their untrimmed
    length is between 10 and 1000 inclusive; exactly then no error is set;
    and the error "Learning goals are required" is set exactly when the
    goals are blank, however long they are. *)
Theorem LearningPath_validateForm_accepts (goals : string) :
  (snd (LearningPath.validateForm goals) = true <->
   blank goals = false /\ 10 <= js_length goals <= 1000)
  /\ (snd (LearningPath.validateForm goals) = true <->
      fst (LearningPath.validateForm goals) = None)
  /\ (fst (LearningPath.validateForm goals) = Some "Learning goals are required"
      <-> blank goals = true).
Proof.
  split; [apply LearningPath_validateForm_true|].
  unfold LearningPath.validateForm. cbn [fst snd].
  destruct (blank goals); [split; split; congruence|].
  destruct (js_length goals <? 10); [split; split; congruence|].
  destruct (js_length goals >? 1000); split; split; congruence.
Qed.

(** ** Progress on the phases *)

Lemma Array_set_get (array : BoolArray) (i : nat) (b : bool) :
  array !! i = Some (Some b) ->
  Array_set array i (negb (Array_get array i)) = <[i := Some (negb b)]> array
  /\ Array_get (<[i := Some (negb b)]> array) i = negb b.
Proof.
  intros Hi. unfold Array_set, Array_get.
  pose proof (lookup_lt_Some _ _ _ Hi) as Hlt. rewrite Hi.
  rewrite decide_True by done. split; [done|].
  by rewrite list_lookup_insert_eq.
Qed.

Lemma recheck_found (result : option (list LearningPath.LearningPhase))
    (phaseNumber : Z) (phase : LearningPath.LearningPhase)
    (entry : LearningPath.Progress) :
  LearningPath.find_phase result phaseNumber = Some phase ->
  LearningPath.recheck result phaseNumber entry
  = {| LearningPath.completed :=
         Array_every (LearningPath.completedObjectives entry)
         && Array_every (LearningPath.completedActivities entry);
       LearningPath.completedObjectives := LearningPath.completedObjectives entry;
       LearningPath.completedActivities := LearningPath.completedActivities entry |}.
Proof. intros Hfound. unfold LearningPath.recheck. by rewrite Hfound. Qed.

(** X28: after a toggle of an objective or of an activity of a phase of
    the result, that phase is marked completed exactly when every objective
    and every activity recorded for it is completed, and the progress of
    every other phase is as it was. *)
Theorem toggle_keeps_completion_consistent
    (result : option (list LearningPath.LearningPhase)) (phaseNumber : Z)
    (phase : LearningPath.LearningPhase) (index : nat)
    (prev : gmap Z LearningPath.Progress) :
  LearningPath.find_phase result phaseNumber = Some phase ->
  (exists entry,
     LearningPath.toggleObjectiveCompletion result phaseNumber index prev
       !! phaseNumber = Some entry
     /\ LearningPath.completed entry
        = Array_every (LearningPath.completedObjectives entry)
          && Array_every (LearningPath.completedActivities entry))
  /\ (exists entry,
        LearningPath.toggleActivityCompletion result phaseNumber index prev
          !! phaseNumber = Some entry
        /\ LearningPath.completed entry
           = Array_every (LearningPath.completedObjectives entry)
             && Array_every (LearningPath.completedActivities entry))
  /\ (forall other, other <> phaseNumber ->
        LearningPath.toggleObjectiveCompletion result phaseNumber index prev
          !! other = prev !! other
        /\ LearningPath.toggleActivityCompletion result phaseNumber index prev
             !! other = prev !! other).
Proof.
  intros Hfound.
  unfold LearningPath.toggleObjectiveCompletion,
    LearningPath.toggleActivityCompletion.
  split; [|split].
  - eexists. rewrite lookup_insert_eq. split; [reflexivity|].
    by rewrite (recheck_found _ _ phase).
  - eexists. rewrite lookup_insert_eq. split; [reflexivity|].
    by rewrite (recheck_found _ _ phase).
  - intros other Hne. by rewrite !lookup_insert_ne.
Qed.

Lemma toggle_keeps_completion_consistent_witness :
  LearningPath.find_phase (Some [sample_phase]) 1 = Some sample_phase
  /\ exists entry,
       LearningPath.toggleObjectiveCompletion (Some [sample_phase]) 1 0 ∅ !! 1
       = Some entry
       /\ LearningPath.completed entry
          = Array_every (LearningPath.completedObjectives entry)
            && Array_every (LearningPath.completedActivities entry).
Proof.
  split; [reflexivity|].
  exact (proj1 (toggle_keeps_completion_consistent (Some [sample_phase]) 1
                  sample_phase 0 ∅ eq_refl)).
Defined.

(** X29: toggling twice: for a phase of the result whose progress is
    recorded with a completion flag that agrees with its objectives and
    activities, toggling an objective that is recorded and toggling it again
    gives back the progress as it was, and so for an activity. *)
Theorem toggle_twice_restores
    (result : option (list LearningPath.LearningPhase)) (phaseNumber : Z)
    (phase : LearningPath.LearningPhase) (index : nat) (b : bool)
    (entry : LearningPath.Progress) (prev : gmap Z LearningPath.Progress) :
  LearningPath.find_phase result phaseNumber = Some phase ->
  prev !! phaseNumber = Some entry ->
  LearningPath.completed entry
  = Array_every (LearningPath.completedObjectives entry)
    && Array_every (LearningPath.completedActivities entry) ->
  (LearningPath.completedObjectives entry !! index = Some (Some b) ->
   LearningPath.toggleObjectiveCompletion result phaseNumber index
     (LearningPath.toggleObjectiveCompletion result phaseNumber index prev)
   = prev)
  /\ (LearningPath.completedActivities entry !! index = Some (Some b) ->
      LearningPath.toggleActivityCompletion result phaseNumber index
        (LearningPath.toggleActivityCompletion result phaseNumber index prev)
      = prev).
Proof.
  intros Hfound Hentry Hflag.
  assert (forall c : bool, negb (negb c) = c) as Hnegb by (by intros []).
  split; intros Hindex.
  - unfold LearningPath.toggleObjectiveCompletion.
    rewrite lookup_insert_eq, Hentry. cbn [from_option id].
    rewrite !(recheck_found _ _ phase) by done.
    cbn [LearningPath.completedObjectives LearningPath.completedActivities
         LearningPath.completed].
    destruct (Array_set_get _ _ _ Hindex) as [-> Hget].
    assert (<[index := Some (negb b)]> (LearningPath.completedObjectives entry)
              !! index = Some (Some (negb b))) as Hindex'.
    { apply list_lookup_insert_eq. by eapply lookup_lt_Some. }
    destruct (Array_set_get _ _ _ Hindex') as [-> _].
    rewrite list_insert_insert_eq, Hnegb, (list_insert_id _ _ _ Hindex).
    rewrite insert_insert_eq, <- Hflag.
    apply insert_id. rewrite Hentry. by destruct entry.
  - unfold LearningPath.toggleActivityCompletion.
    rewrite lookup_insert_eq, Hentry. cbn [from_option id].
    rewrite !(recheck_found _ _ phase) by done.
    cbn [LearningPath.completedObjectives LearningPath.completedActivities
         LearningPath.completed].
    destruct (Array_set_get _ _ _ Hindex) as [-> Hget].
    assert (<[index := Some (negb b)]> (LearningPath.completedActivities entry)
              !! index = Some (Some (negb b))) as Hindex'.
    { apply list_lookup_insert_eq. by eapply lookup_lt_Some. }
    destruct (Array_set_get _ _ _ Hindex') as [-> _].
    rewrite list_insert_insert_eq, Hnegb, (list_insert_id _ _ _ Hindex).
    rewrite insert_insert_eq, <- Hflag.
    apply insert_id. rewrite Hentry. by destruct entry.
Qed.

Lemma toggle_twice_restores_witness :
  LearningPath.find_phase (Some [sample_phase]) 1 = Some sample_phase
  /\ ({[ 1 := sample_progress ]} : gmap Z LearningPath.Progress) !! 1
     = Some sample_progress
  /\ LearningPath.completedObjectives sample_progress !! 1%nat
     = Some (Some false)
  /\ LearningPath.toggleObjectiveCompletion (Some [sample_phase]) 1 1
       (LearningPath.toggleObjectiveCompletion (Some [sample_phase]) 1 1
          {[ 1 := sample_progress ]})
     = {[ 1 := sample_progress ]}.
Proof.
  assert (({[ 1 := sample_progress ]} : gmap Z LearningPath.Progress) !! 1
          = Some sample_progress) as Hentry by apply lookup_singleton_eq.
  split; [reflexivity|]. split; [exact Hentry|]. split; [reflexivity|].
  exact (proj1 (toggle_twice_restores (Some [sample_phase]) 1 sample_phase
                  1 false sample_progress {[ 1 := sample_progress ]}
                  eq_refl Hentry eq_refl)
           eq_refl).
Defined.

(** ** The health indicator *)


